(** * responder.api: the request dispatcher of [src/responder/api.py]

    A shallow embedding of the [API] class: the route table, the
    handler-shape cascade of [_dispatch_request], GraphQL query
    resolution, reverse lookup, the mount table and the cached client
    session, followed by the properties stated about them.

    Python objects are modelled by what the dispatcher can observe of
    them: an identity, their behaviour under each calling shape the
    dispatcher tries, and their attributes.  Exceptions are an explicit
    outcome; mutation of the request and the response is explicit state
    passing through a small state-and-exception monad. *)

From stdpp Require Import base strings gmap list pretty.

Set Warnings "-register-all".

(** ** Python values, exceptions and outcomes *)

(** The exception classes the module raises or catches; [Exception]
    stands for any other class. *)
Inductive exn :=
  | TypeError
  | AttributeError
  | AssertionError
  | KeyError
  | IndexError
  | ValueError
  | Exception (name : string).

#[global] Instance exn_eq_dec : EqDecision exn.
Proof. solve_decision. Defined.

(** A computation either returns or raises. *)
Inductive outcome (A : Type) :=
  | Return (a : A)
  | Raise (e : exn).
Arguments Return {A} a.
Arguments Raise {A} e.

(** Plain data: JSON documents, strings, status codes. *)
Inductive pyval :=
  | PNone
  | PBool (b : bool)
  | PInt (z : Z)
  | PStr (s : string)
  | PList (l : list pyval)
  | PDict (d : gmap string pyval).

(** [v[key]] for a string key: only a dict can be subscripted by a
    string; every other value raises TypeError. *)
Definition getitem (v : pyval) (key : string) : outcome pyval :=
  match v with
  | PDict d => match d !! key with
               | Some x => Return x
               | None => Raise KeyError
               end
  | _ => Raise TypeError
  end.

(** [needle in hay] on two strings: substring test. *)
Fixpoint str_contains (needle hay : string) : bool :=
  String.prefix needle hay ||
  match hay with
  | EmptyString => false
  | String _ rest => str_contains needle rest
  end.

(** [str.lower], on ASCII letters. *)
Definition lower_ascii (c : Ascii.ascii) : Ascii.ascii :=
  let n := Ascii.nat_of_ascii c in
  if (65 <=? n)%nat && (n <=? 90)%nat then Ascii.ascii_of_nat (n + 32) else c.

Fixpoint lower (s : string) : string :=
  match s with
  | EmptyString => EmptyString
  | String c rest => String (lower_ascii c) (lower rest)
  end.

(** ** The request and response models *)

Module models.

(** [req.data]: the parsed body, a plain string or a mapping of
    fields. *)
Inductive body :=
  | Text (s : string)
  | Fields (m : gmap string pyval).

(** Modelled from the spec: [models.Request] (responder/models.py is
    not among the sources).  The attributes [api.py] reads: method,
    path, content type, the parsed query parameters (each name maps
    to the list of its values), the body as JSON / parsed data / raw
    text, the transport environment, and the one mutable flag
    [dispatched].  [json] is the outcome of calling [req.json()]. *)
Record Request := {
  path : string;
  method : string;
  mimetype : string;
  json : outcome pyval;
  data : body;
  params : gmap string (list string);
  text : string;
  dispatched : bool;
  _environ : pyval;
  _start_response : pyval;
}.

Definition set_dispatched (b : bool) (r : Request) : Request :=
  {| path := path r; method := method r; mimetype := mimetype r;
     json := json r; data := data r; params := params r; text := text r;
     dispatched := b;
     _environ := _environ r; _start_response := _start_response r |}.

(** Modelled from the spec: [models.Response], the mutable response
    builder; the attributes [api.py] assigns ([text_] is the
    response's [text]). *)
Record Response := {
  status_code : pyval;
  text_ : pyval;
  media : pyval;
}.

End models.

Import models.

(** Modelled from the spec: [status.HTTP_404] (responder/status.py is
    not among the sources). *)
Definition HTTP_404 : Z := 404.

(** ** Handlers as objects *)

(** What happens when an object is called under a given shape: either
    the call itself is rejected (the object is not callable, or its
    signature does not accept the arguments; the interpreter raises
    TypeError before any body runs), or the shape is accepted and the
    body runs. *)
Inductive call (B : Type) :=
  | Mismatch
  | Accepts (run : B).
Arguments Mismatch {B}.
Arguments Accepts {B} run.

(** An object as the dispatcher sees it.  [oid] is its identity.
    - [call_req_resp]: [obj(req, resp)]; the body reads the request and
      mutates the response (mutations made before an exception stay);
    - [call_noargs]: [obj()], the factory shape, returning a view;
    - [call_query]: [obj(query)], the shape of a schema's [execute];
    - [call_wsgi]: [obj(environ=..., start_response=...)];
    - [attrs]: the attributes [getattr]/[hasattr] can find. *)
Inductive pyobj := PyObj {
  oid : nat;
  call_req_resp : call (Request → Response → outcome unit * Response);
  call_noargs : call (outcome pyobj);
  call_query : call (pyval → outcome pyval);
  call_wsgi : call (pyval → pyval → outcome pyval);
  attrs : gmap string pyobj;
}.

(** [a == b] on objects with the default [object.__eq__]: identity. *)
Definition py_eq (a b : pyobj) : bool := bool_decide (oid a = oid b).

(** ** Dispatch state: a state-and-exception monad *)

(** The calls the dispatcher issues, in order.  This is ghost
    instrumentation: an event is recorded when the dispatcher evaluates
    the call expression, whether or not the callee accepts the shape. *)
Inductive event :=
  | EvCall (o : nat)                    (* self.routes[route](req, resp) *)
  | EvFactory (o : nat)                 (* self.routes[route]() *)
  | EvExecute (o : nat) (query : pyval) (* schema.execute(query) *)
  | EvWsgi (o : nat)                    (* view(environ=.., start_response=..) *)
  | EvHook (o : nat) (name : string)    (* getattr(view, name)(req, resp) *)
  | EvDefaultResponse.                  (* self.default_response(req, resp) *)

Record world := {
  w_req : Request;
  w_resp : Response;
  w_trace : list event;
}.

Definition M (A : Type) : Type := world → outcome A * world.

#[global] Instance M_ret : MRet M := λ A a w, (Return a, w).

#[global] Instance M_bind : MBind M := λ A B f m w,
  match m w with
  | (Return a, w') => f a w'
  | (Raise e, w') => (Raise e, w')
  end.

Definition raise {A} (e : exn) : M A := λ w, (Raise e, w).

Definition lift {A} (o : outcome A) : M A := λ w, (o, w).

(** [try: m  except cls: h].  The handler [h] runs outside the guarded
    region: what it raises is not caught again. *)
Definition try_except {A} (m : M A) (cls : exn) (h : M A) : M A := λ w,
  match m w with
  | (Raise e, w') => if decide (e = cls) then h w' else (Raise e, w')
  | r => r
  end.

Definition get_req : M Request := λ w, (Return (w_req w), w).
Definition get_resp : M Response := λ w, (Return (w_resp w), w).

Definition put_req (r : Request) : M unit := λ w,
  (Return (), {| w_req := r; w_resp := w_resp w; w_trace := w_trace w |}).

Definition put_resp (r : Response) : M unit := λ w,
  (Return (), {| w_req := w_req w; w_resp := r; w_trace := w_trace w |}).

Definition log (e : event) : M unit := λ w,
  (Return (), {| w_req := w_req w; w_resp := w_resp w;
                 w_trace := w_trace w ++ [e] |}).

(** [assert b] *)
Definition assert (b : bool) : M unit :=
  if b then mret () else raise AssertionError.

(** [getattr(obj, name)] and [hasattr(obj, name)] *)
Definition getattr (obj : pyobj) (name : string) : M pyobj :=
  match attrs obj !! name with
  | Some a => mret a
  | None => raise AttributeError
  end.

Definition hasattr (obj : pyobj) (name : string) : bool :=
  bool_decide (is_Some (attrs obj !! name)).

(** Applying an object under each calling shape.  A rejected call
    raises TypeError and leaves the response as it was. *)

(** [f(req, resp)] *)
Definition apply_req_resp (f : pyobj) (req : Request) (resp : Response)
  : outcome unit * Response :=
  match call_req_resp f with
  | Mismatch => (Raise TypeError, resp)
  | Accepts run => run req resp
  end.

(** [f()] *)
Definition apply_noargs (f : pyobj) : outcome pyobj :=
  match call_noargs f with
  | Mismatch => Raise TypeError
  | Accepts r => r
  end.

(** [f(query)] *)
Definition apply_query (f : pyobj) (query : pyval) : outcome pyval :=
  match call_query f with
  | Mismatch => Raise TypeError
  | Accepts run => run query
  end.

(** [f(environ=e, start_response=s)] *)
Definition apply_wsgi (f : pyobj) (e s : pyval) : outcome pyval :=
  match call_wsgi f with
  | Mismatch => Raise TypeError
  | Accepts run => run e s
  end.

(** The same calls as steps of a dispatch: the two-argument call acts
    on the current request and response. *)
Definition invoke_req_resp (f : pyobj) : M unit := λ w,
  let '(r, resp') := apply_req_resp f (w_req w) (w_resp w) in
  (r, {| w_req := w_req w; w_resp := resp'; w_trace := w_trace w |}).

Definition invoke_noargs (f : pyobj) : M pyobj := lift (apply_noargs f).

Definition invoke_query (f : pyobj) (query : pyval) : M pyval :=
  lift (apply_query f query).

Definition invoke_wsgi (f : pyobj) (e s : pyval) : M pyval :=
  lift (apply_wsgi f e s).

(** ** Insertion-ordered dictionaries

    [self.routes] is a Python dict: iteration follows insertion order,
    and assigning to a key already present replaces the value where it
    stands.  Reverse lookup depends on that order, so the table is an
    association list. *)
Module dict.

Section Dict.
Context {V : Type}.

(** [k in d] *)
Fixpoint contains (d : list (string * V)) (k : string) : bool :=
  match d with
  | [] => false
  | (k', _) :: rest => if decide (k = k') then true else contains rest k
  end.

(** [d[k]] *)
Fixpoint getitem (d : list (string * V)) (k : string) : outcome V :=
  match d with
  | [] => Raise KeyError
  | (k', v) :: rest => if decide (k = k') then Return v else getitem rest k
  end.

(** [d[k] = v] *)
Fixpoint setitem (d : list (string * V)) (k : string) (v : V)
  : list (string * V) :=
  match d with
  | [] => [(k, v)]
  | (k', v') :: rest =>
      if decide (k = k') then (k, v) :: rest
      else (k', v') :: setitem rest k v
  end.

End Dict.

End dict.

(** ** The client session (requests) *)

(** What a gateway callable stored by the application can be: the
    application object itself (through [__call__]), its bound method
    [self._wsgi_app], or a foreign application. *)
Inductive wsgi_callable :=
  | Self
  | Self_wsgi_app
  | App (o : pyobj).

Inductive adapter :=
  | HTTPAdapter
  | RequestsWSGIAdapter (app : wsgi_callable).

(** A [requests.Session]: its identity and its prefix-to-adapter
    table. *)
Record RequestsSession := {
  session_id : nat;
  adapters : gmap string adapter;
}.

(** ** The application object *)

(** The attributes of [API] the modelled methods use.  [allocated]
    counts the session objects constructed so far and gives each its
    identity (ghost state). *)
Record API := {
  routes : list (string * pyobj);
  apps : gmap string wsgi_callable;
  _session : option RequestsSession;
  allocated : nat;
}.

(** [API.__init__] (lines 20-34), without the directories and the
    static-file wrapper. *)
Definition API_init : API :=
  {| routes := [];
     apps := {[ "/" := Self_wsgi_app ]};
     _session := None;
     allocated := 0 |}.

(** The result of [_dispatch_request]: the response object, or
    whatever a raw gateway application returned. *)
Inductive dispatch_result :=
  | RetResp (resp : Response)
  | RetWsgi (v : pyval).

(** Code the module calls that is not among the sources: the
    constructor of [models.Response] and the library functions of
    graphql_server, json and requests.  They are parameters of the
    development. *)
Class externals := {
  (** [models.Response(req=req)]: the fresh response of a dispatch *)
  Response_new : Request → Response;
  (** [graphql_server.encode_execution_results([result], ...)]:
      the serialized document and the status code *)
  encode_execution_results : pyval → outcome (string * Z);
  (** [json.loads] *)
  json_loads : string → outcome pyval;
  (** the prefix table of a fresh [requests.Session()] *)
  RequestsSession_adapters : gmap string adapter;
}.

Section Api.

Context {ext : externals}.

(** [API.path_matches_route] (lines 83-86); falling off the end of
    the loop returns Python's [None]. *)
Fixpoint path_matches_route_items (items : list (string * pyobj))
    (url : string) : option string :=
  match items with
  | [] => None
  | (route, view) :: rest =>
      if decide (url = route) then Some route
      else path_matches_route_items rest url
  end.

Definition path_matches_route (self : API) (url : string) : option string :=
  path_matches_route_items (routes self) url.

(** Truth value of [route] in [if route:]: [None] and the empty
    string are false. *)
Definition truthy (route : option string) : bool :=
  match route with
  | None => false
  | Some s => negb (bool_decide (s = ""))
  end.

(** [API.default_response] (lines 140-142) *)
Definition default_response : M unit :=
  log EvDefaultResponse;;
  resp ← get_resp;
  put_resp {| status_code := PInt HTTP_404; text_ := text_ resp;
              media := media resp |};;
  resp ← get_resp;
  put_resp {| status_code := status_code resp; text_ := PStr "Not found.";
              media := media resp |}.

(** [xs[0]] on a list of parameter values *)
Definition first_value (xs : list string) : outcome pyval :=
  match xs with
  | x :: _ => Return (PStr x)
  | [] => Raise IndexError
  end.

(** [API._resolve_graphql_query] (lines 144-164) *)
Definition _resolve_graphql_query (req : Request) : outcome pyval :=
  if str_contains "json" (mimetype req) then
    match json req with
    | Return j => getitem j "query"
    | Raise e => Raise e
    end
  else
    let from_data :=
      match data req with
      | Text _ => None
      | Fields m =>
          match m !! "query" with
          | Some v => Some v
          | None => m !! "q"
          end
      end in
    match from_data with
    | Some v => Return v
    | None =>
        match params req !! "query" with
        | Some vs => first_value vs
        | None =>
            match params req !! "q" with
            | Some vs => first_value vs
            | None => Return (PStr (text req))
            end
        end
    end.

(** [API.graphql_response] (lines 166-176) *)
Definition graphql_response (schema : pyobj) : M (pyval * string * Z) :=
  req ← get_req;
  query ← lift (_resolve_graphql_query req);
  execute ← getattr schema "execute";
  log (EvExecute (oid schema) query);;
  result ← invoke_query execute query;
  '(result, status_code) ← lift (encode_execution_results result);
  media ← lift (json_loads result);
  resp ← get_resp;
  put_resp {| status_code := models.status_code resp; text_ := text_ resp;
              media := media |};;
  mret (query, result, status_code).

(** The hook step (lines 115-127): [on_request], then
    [on_<method>]. *)
Definition hook (view : pyobj) (name : string) : M unit :=
  try_except
    (h ← getattr view name;
     log (EvHook (oid view) name);;
     invoke_req_resp h)
    AttributeError
    (mret ()).

Definition hooks (view : pyobj) : M unit :=
  hook view "on_request";;
  req ← get_req;
  let method := lower (method req) in
  hook view ("on_" +:+ method).

(** The raw gateway attempt (lines 107-113).  [Some v] is the early
    [return] of the call's value; [None] is [pass]. *)
Definition wsgi_step (view : pyobj) : M (option pyval) :=
  try_except
    (req ← get_req;
     put_req (set_dispatched true req);;
     req ← get_req;
     log (EvWsgi (oid view));;
     v ← invoke_wsgi view (_environ req) (_start_response req);
     mret (Some v))
    TypeError
    (mret None).

(** The schema attempt with its fallback (lines 101-113). *)
Definition schema_step (view : pyobj) : M (option pyval) :=
  try_except
    (assert (hasattr view "execute");;
     graphql_response view;;
     mret None)
    AssertionError
    (wsgi_step view).

(** Obtaining the view (lines 97-113): the zero-argument factory
    call, else the handler itself, tried as a schema and as a raw
    gateway application.  The second component is the early return
    value, if any. *)
Definition view_step (handler : pyobj) : M (pyobj * option pyval) :=
  try_except
    (log (EvFactory (oid handler));;
     view ← invoke_noargs handler;
     mret (view, None))
    TypeError
    (let view := handler in
     early ← schema_step view;
     mret (view, early)).

(** The body of [except TypeError:] (lines 96-127). *)
Definition class_based (handler : pyobj) : M (option pyval) :=
  '(view, early) ← view_step handler;
  match early with
  | Some v => mret (Some v)
  | None => hooks view;; mret None
  end.

(** The body of [if route:] (lines 93-127).  [self.routes[route]] is
    evaluated once here; the source evaluates it at each use, with
    the same result. *)
Definition dispatch_route (self : API) (route : string) : M (option pyval) :=
  handler ← lift (dict.getitem (routes self) route);
  try_except
    (log (EvCall (oid handler));;
     invoke_req_resp handler;;
     mret None)
    TypeError
    (class_based handler).

(** [API._dispatch_request] (lines 88-131), from the state in which
    [resp = models.Response(req=req)] has just been created. *)
Definition return_value (early : option pyval) : M dispatch_result :=
  match early with
  | Some v => mret (RetWsgi v)
  | None => resp ← get_resp; mret (RetResp resp)
  end.

Definition dispatch_body (self : API) : M dispatch_result :=
  req ← get_req;
  let route := path_matches_route self (path req) in
  early ← (if truthy route
           then dispatch_route self (default "" route)
           else default_response;; mret None);
  return_value early.

Definition init_world (req : Request) : world :=
  {| w_req := req; w_resp := Response_new req; w_trace := [] |}.

Definition _dispatch_request (self : API) (req : Request)
  : outcome dispatch_result * world :=
  dispatch_body self (init_world req).

(** [API.add_route] (lines 133-138); [graphiql] is unused by the
    source. *)
Definition add_route (self : API) (route : string) (view : pyobj)
    (check_existing : bool) : outcome API :=
  if check_existing && dict.contains (routes self) route
  then Raise AssertionError
  else Return {| routes := dict.setitem (routes self) route view;
                 apps := apps self;
                 _session := _session self;
                 allocated := allocated self |}.

(** [API.mount] (lines 185-186) *)
Definition mount (self : API) (route : string) (wsgi_app : wsgi_callable)
  : API :=
  {| routes := routes self;
     apps := <[ route := wsgi_app ]> (apps self);
     _session := _session self;
     allocated := allocated self |}.

(** [API.session] (lines 188-193): the returned session and the
    application afterwards. *)
Definition session (self : API) (base_url : string)
  : RequestsSession * API :=
  match _session self with
  | None =>
      let session := {| session_id := allocated self;
                        adapters := RequestsSession_adapters |} in
      let session := {| session_id := session_id session;
                        adapters := <[ base_url := RequestsWSGIAdapter Self ]>
                                      (adapters session) |} in
      (session, {| routes := routes self; apps := apps self;
                   _session := Some session;
                   allocated := S (allocated self) |})
  | Some s => (s, self)
  end.

(** [API.url_for] (lines 195-200) *)
Fixpoint url_for_items (items : list (string * pyobj)) (view : pyobj)
  : outcome string :=
  match items with
  | [] => Raise ValueError
  | (route, _view) :: rest =>
      if py_eq view _view then Return route else url_for_items rest view
  end.

Definition url_for (self : API) (view : pyobj) : outcome string :=
  url_for_items (routes self) view.

End Api.

(** ** Sample handlers, requests and library stubs

    Concrete inputs on which the statements below are evaluated. *)
Module samples.

Definition lib : externals :=
  {| Response_new := λ _, {| status_code := PInt 200; text_ := PNone;
                             media := PNone |};
     encode_execution_results := λ r,
       match r with
       | PStr s => Return (s, 200%Z)
       | _ => Return ("null", 400%Z)
       end;
     json_loads := λ s, Return (PList [PStr s]);
     RequestsSession_adapters :=
       {[ "http://" := HTTPAdapter; "https://" := HTTPAdapter ]} |}.

Definition request (method path : string) : Request :=
  {| models.path := path; models.method := method;
     mimetype := "text/plain"; json := Raise ValueError;
     data := Text ""; params := ∅; text := "";
     dispatched := false; _environ := PNone; _start_response := PNone |}.

(** A request carrying a GraphQL query as its raw text. *)
Definition query_request (path : string) : Request :=
  {| models.path := path; models.method := "POST";
     mimetype := "text/plain"; json := Raise ValueError;
     data := Text "{ping}"; params := ∅; text := "{ping}";
     dispatched := false; _environ := PNone; _start_response := PNone |}.

(** A JSON request whose body is an object with a [query] field. *)
Definition json_request : Request :=
  {| models.path := "/graphql"; models.method := "POST";
     mimetype := "application/json";
     json := Return (PDict {[ "query" := PStr "{ping}" ]});
     data := Fields {[ "query" := PStr "{other}" ]};
     params := {[ "query" := ["{param}"] ]}; text := "raw";
     dispatched := false; _environ := PNone; _start_response := PNone |}.

(** A JSON request whose body is an object without a [query] field. *)
Definition json_request_no_query : Request :=
  {| models.path := "/graphql"; models.method := "POST";
     mimetype := "application/json";
     json := Return (PDict {[ "q" := PStr "{ping}" ]});
     data := Fields {[ "q" := PStr "{ping}" ]};
     params := {[ "query" := ["{param}"] ]}; text := "raw";
     dispatched := false; _environ := PNone; _start_response := PNone |}.

(** A form request with a [q] field. *)
Definition form_request : Request :=
  {| models.path := "/graphql"; models.method := "POST";
     mimetype := "application/x-www-form-urlencoded";
     json := Raise ValueError;
     data := Fields {[ "q" := PStr "{ping}" ]};
     params := {[ "query" := ["{param}"] ]}; text := "q=%7Bping%7D";
     dispatched := false; _environ := PNone; _start_response := PNone |}.

(** A request with the query in the URL: [?query={ping}]. *)
Definition params_request : Request :=
  {| models.path := "/graphql"; models.method := "GET";
     mimetype := "text/plain"; json := Raise ValueError;
     data := Text ""; params := {[ "query" := ["{ping}"; "{second}"] ]};
     text := "";
     dispatched := false; _environ := PNone; _start_response := PNone |}.

Definition set_text (s : string) (resp : Response) : Response :=
  {| status_code := status_code resp; text_ := PStr s;
     media := media resp |}.

(** An object that is not callable and has no attributes. *)
Definition inert (id : nat) : pyobj :=
  {| oid := id; call_req_resp := Mismatch; call_noargs := Mismatch;
     call_query := Mismatch; call_wsgi := Mismatch; attrs := ∅ |}.

(** [def hello(req, resp): resp.text = "hello"] *)
Definition hello : pyobj :=
  {| oid := 1;
     call_req_resp := Accepts (λ _ resp, (Return (), set_text "hello" resp));
     call_noargs := Mismatch; call_query := Mismatch;
     call_wsgi := Mismatch; attrs := ∅ |}.

(** [def other(req, resp): resp.text = "other"] *)
Definition other : pyobj :=
  {| oid := 2;
     call_req_resp := Accepts (λ _ resp, (Return (), set_text "other" resp));
     call_noargs := Mismatch; call_query := Mismatch;
     call_wsgi := Mismatch; attrs := ∅ |}.

(** [def boom(req, resp): resp.text = "partial"; len(5)]: accepts
    the two arguments and raises TypeError from its body. *)
Definition boom_body (req : Request) (resp : Response)
  : outcome unit * Response :=
  (Raise TypeError, set_text "partial" resp).

Definition boom : pyobj :=
  {| oid := 3; call_req_resp := Accepts boom_body;
     call_noargs := Mismatch; call_query := Mismatch;
     call_wsgi := Mismatch; attrs := ∅ |}.

(** [def crash(req, resp): raise ValueError] *)
Definition crash_body (req : Request) (resp : Response)
  : outcome unit * Response :=
  (Raise ValueError, resp).

Definition crash : pyobj :=
  {| oid := 4; call_req_resp := Accepts crash_body;
     call_noargs := Mismatch; call_query := Mismatch;
     call_wsgi := Mismatch; attrs := ∅ |}.

(** A bound method [m(req, resp)] appending a mark to the text. *)
Definition mark (s : string) (resp : Response) : Response :=
  {| status_code := status_code resp;
     text_ := match text_ resp with
              | PStr t => PStr (t +:+ s)
              | _ => PStr s
              end;
     media := media resp |}.

Definition method_ (id : nat) (s : string) : pyobj :=
  {| oid := id;
     call_req_resp := Accepts (λ _ resp, (Return (), mark s resp));
     call_noargs := Mismatch; call_query := Mismatch;
     call_wsgi := Mismatch; attrs := ∅ |}.

(** An instance of a resource class with [on_request] and [on_get];
    the instance itself is not callable. *)
Definition resource : pyobj :=
  {| oid := 10; call_req_resp := Mismatch; call_noargs := Mismatch;
     call_query := Mismatch; call_wsgi := Mismatch;
     attrs := {[ "on_request" := method_ 11 "[request]";
                 "on_get" := method_ 12 "[get]" ]} |}.

(** The resource class: calling it without arguments makes an
    instance. *)
Definition Resource : pyobj :=
  {| oid := 13; call_req_resp := Mismatch;
     call_noargs := Accepts (Return resource);
     call_query := Mismatch; call_wsgi := Mismatch; attrs := ∅ |}.

(** A schema object: [execute(query)] echoes the query. *)
Definition execute_ (id : nat) : pyobj :=
  {| oid := id; call_req_resp := Mismatch; call_noargs := Mismatch;
     call_query := Accepts (λ q, Return q);
     call_wsgi := Mismatch; attrs := ∅ |}.

Definition schema : pyobj :=
  {| oid := 20; call_req_resp := Mismatch; call_noargs := Mismatch;
     call_query := Mismatch; call_wsgi := Mismatch;
     attrs := {[ "execute" := execute_ 21 ]} |}.


(** A raw gateway application. *)
Definition wsgi : pyobj :=
  {| oid := 30; call_req_resp := Mismatch; call_noargs := Mismatch;
     call_query := Mismatch;
     call_wsgi := Accepts (λ _ _, Return (PList [PStr "body"]));
     attrs := ∅ |}.

(** [hello] registered at [/a], then at [/b] as well. *)
Definition api_two_routes : API :=
  {| routes := dict.setitem (dict.setitem [] "/a" hello) "/b" hello;
     apps := apps API_init; _session := None; allocated := 0 |}.

(** An application with one route. *)
Definition api1 (route : string) (view : pyobj) : API :=
  {| routes := dict.setitem [] route view; apps := apps API_init;
     _session := None; allocated := 0 |}.

End samples.

(** ** Predicates on the trace *)

(** [grows P m]: running [m] only appends events to the trace, all
    satisfying [P]. *)
Definition grows {A} (P : event → Prop) (m : M A) : Prop :=
  ∀ w, ∃ t, w_trace (m w).2 = w_trace w ++ t ∧ Forall P t.

(** The event is a hook call on [view]. *)
Definition is_hook (view : pyobj) (e : event) : Prop :=
  ∃ name, e = EvHook (oid view) name.

(** Neither [query] nor [q] can be taken from the parsed body: it is
    a plain string, or a mapping holding neither key. *)
Definition no_query_in_data (req : Request) : Prop :=
  match data req with
  | Text _ => True
  | Fields m => m !! "query" = None ∧ m !! "q" = None
  end.

(** A sequence of [mount] calls, in order. *)
Definition mount_all (self : API) (calls : list (string * wsgi_callable))
  : API :=
  foldl (λ api c, mount api c.1 c.2) self calls.

(** A sequence of [session] calls, in order: the sessions returned and
    the application afterwards. *)
Fixpoint session_calls {ext : externals} (self : API) (urls : list string)
  : list RequestsSession * API :=
  match urls with
  | [] => ([], self)
  | url :: rest =>
      let '(s, self') := session self url in
      let '(ss, self'') := session_calls self' rest in
      (s :: ss, self'')
  end.

(** The world after one more call has been issued. *)
Definition with_event (w : world) (e : event) : world :=
  {| w_req := w_req w; w_resp := w_resp w; w_trace := w_trace w ++ [e] |}.

(** ** The remaining methods of the application object *)

(** The transport side, which is not among the sources:
    [models.Request.from_environ], calling a response object as a
    gateway application, and werkzeug's [DispatcherMiddleware] applied
    to the main application and the table of mounts. *)
Class transport := {
  Request_from_environ : pyval → pyval → Request;
  Response_call : Response → pyval → pyval → outcome pyval;
  DispatcherMiddleware :
    wsgi_callable → gmap string wsgi_callable → pyval → pyval → outcome pyval;
}.

(** The [port] argument of [run]: a number, or a string as read from
    the environment. *)
Inductive port_value :=
  | PortInt (n : Z)
  | PortStr (s : string).

(** The port inside an f-string. *)
Definition format_port (p : port_value) : string :=
  match p with
  | PortInt n => pretty n
  | PortStr s => s
  end.

Module methods.

Section Methods.

Context {ext : externals} {tr : transport}.

(** [API.route] (lines 178-183), the decorator applied to [f]: the
    value it returns and the application afterwards.  The options are
    unused by the source. *)
Definition route (self : API) (path : string) (f : pyobj)
  : outcome (pyobj * API) :=
  match add_route self path f true with
  | Return self' => Return (f, self')
  | Raise e => Raise e
  end.

(** [API.wsgi_app] (lines 71-75), up to the construction of the
    middleware: [apps = self.apps.copy(); main = apps.pop("/")].  The
    copy leaves [self.apps] as it is. *)
Definition wsgi_app_parts (self : API)
  : outcome (wsgi_callable * gmap string wsgi_callable) :=
  let apps := apps self in
  match apps !! "/" with
  | Some main => Return (main, delete "/" apps)
  | None => Raise KeyError
  end.

(** [API.wsgi_app] (lines 71-75); [API.__call__] (lines 77-81) is the
    same call. *)
Definition wsgi_app (self : API) (environ start_response : pyval)
  : outcome pyval :=
  match wsgi_app_parts self with
  | Return (main, apps) => DispatcherMiddleware main apps environ start_response
  | Raise e => Raise e
  end.

(** [API.__wsgi_app] (lines 36-66).  The value [_dispatch_request]
    returned is called with [(environ, start_response)]: a response
    object answers as a gateway application; the value a raw gateway
    application returned is plain data, and calling it raises
    TypeError. *)
Definition __wsgi_app (self : API) (environ start_response : pyval)
  : outcome pyval :=
  let req := Request_from_environ environ start_response in
  match (_dispatch_request self req).1 with
  | Return (RetResp resp) => Response_call resp environ start_response
  | Return (RetWsgi v) => Raise TypeError
  | Raise e => Raise e
  end.

(** [API.run] (lines 245-258): the [listen] string handed to the
    server, from [os.environ] and the two arguments. *)
Definition run (environ : gmap string string) (address : option string)
    (port : option port_value) : string :=
  let '(address, port) :=
    match environ !! "PORT" with
    | Some p =>
        (match address with
         | None => Some "0.0.0.0"
         | Some a => Some a
         end,
         Some (PortStr p))
    | None => (address, port)
    end in
  let address := match address with None => "127.0.0.1" | Some a => a end in
  let port := match port with None => PortInt 0 | Some p => p end in
  address +:+ ":" +:+ format_port port.

End Methods.

End methods.

(** A sequence of [add_route] calls, in order, stopping at the first
    that fails. *)
Fixpoint add_routes (self : API) (calls : list (string * pyobj * bool))
  : outcome API :=
  match calls with
  | [] => Return self
  | (path, view, check_existing) :: rest =>
      match add_route self path view check_existing with
      | Return self' => add_routes self' rest
      | Raise e => Raise e
      end
  end.

(** [marks_only m]: running [m] leaves the request as it is, or marks
    it as dispatched and changes nothing else. *)
Definition marks_only {A} (m : M A) : Prop :=
  ∀ w, w_req (m w).2 = w_req w
       ∨ w_req (m w).2 = set_dispatched true (w_req w).

(** [needle] occurs in [hay]. *)
Definition occurs_in (needle hay : string) : Prop :=
  ∃ before after, hay = before +:+ needle +:+ after.

(** ** More sample handlers *)
Module cases.

(** A class whose instances are schema objects. *)
Definition SchemaClass : pyobj :=
  {| oid := 40; call_req_resp := Mismatch;
     call_noargs := Accepts (Return samples.schema);
     call_query := Mismatch; call_wsgi := Mismatch; attrs := ∅ |}.

(** A class whose constructor raises ValueError. *)
Definition FailingClass : pyobj :=
  {| oid := 41; call_req_resp := Mismatch;
     call_noargs := Accepts (Raise ValueError);
     call_query := Mismatch; call_wsgi := Mismatch; attrs := ∅ |}.

(** A resource with an [on_post] hook only, and its class. *)
Definition post_only : pyobj :=
  {| oid := 42; call_req_resp := Mismatch; call_noargs := Mismatch;
     call_query := Mismatch; call_wsgi := Mismatch;
     attrs := {[ "on_post" := samples.method_ 43 "[post]" ]} |}.

Definition PostOnly : pyobj :=
  {| oid := 44; call_req_resp := Mismatch;
     call_noargs := Accepts (Return post_only);
     call_query := Mismatch; call_wsgi := Mismatch; attrs := ∅ |}.

(** A schema whose [execute] raises AssertionError. *)
Definition asserting_execute : pyobj :=
  {| oid := 45; call_req_resp := Mismatch; call_noargs := Mismatch;
     call_query := Accepts (λ _, Raise AssertionError);
     call_wsgi := Mismatch; attrs := ∅ |}.

Definition asserting_schema : pyobj :=
  {| oid := 46; call_req_resp := Mismatch; call_noargs := Mismatch;
     call_query := Mismatch; call_wsgi := Mismatch;
     attrs := {[ "execute" := asserting_execute ]} |}.

(** A bound method [m(req, resp)] that raises [e]. *)
Definition raising_method (id : nat) (e : exn) : pyobj :=
  {| oid := id;
     call_req_resp := Accepts (λ _ resp, (Raise e, resp));
     call_noargs := Mismatch; call_query := Mismatch;
     call_wsgi := Mismatch; attrs := ∅ |}.

(** A resource whose [on_request] raises [e]; [on_get] marks the
    text. *)
Definition moody (e : exn) : pyobj :=
  {| oid := 50; call_req_resp := Mismatch; call_noargs := Mismatch;
     call_query := Mismatch; call_wsgi := Mismatch;
     attrs := {[ "on_request" := raising_method 51 e;
                 "on_get" := samples.method_ 52 "[get]" ]} |}.

(** A dispatch state at the hook step of a GET request. *)
Definition at_hooks : world :=
  {| w_req := samples.request "GET" "/r";
     w_resp := {| status_code := PInt 200; text_ := PNone; media := PNone |};
     w_trace := [] |}.

(** Transport stubs: the path is the environment's string; a response
    answers with its text. *)
Definition wire : transport :=
  {| Request_from_environ := λ environ _,
       samples.request "GET" match environ with PStr s => s | _ => "/" end;
     Response_call := λ resp _ _, Return (PList [text_ resp]);
     DispatcherMiddleware := λ main apps _ _,
       Return (PInt (Z.of_nat (size apps))) |}.

(** A JSON request whose body is a list, not an object. *)
Definition json_list_request : Request :=
  {| models.path := "/graphql"; models.method := "POST";
     mimetype := "application/json";
     json := Return (PList [PStr "{ping}"]);
     data := Text "[]"; params := ∅; text := "[]";
     dispatched := false; _environ := PNone; _start_response := PNone |}.

(** [old] registered at the empty path. *)
Definition api_empty_path : API := samples.api1 "" samples.hello.

End cases.

(** ** The hook step, hook by hook *)




(** * Properties *)

(** ** The monad and the trace *)

Lemma bind_run {A B} (m : M A) (f : A → M B) w :
  (m ≫= f) w = match m w with
               | (Return a, w') => f a w'
               | (Raise e, w') => (Raise e, w')
               end.
Proof. reflexivity. Qed.


Section Grows.
Context (P : event → Prop).

Lemma grows_silent {A} (m : M A) :
  (∀ w, w_trace (m w).2 = w_trace w) → grows P m.
Proof. intros H w. exists []. rewrite H, app_nil_r. auto. Qed.

Lemma grows_ret {A} (a : A) : grows P (mret a).
Proof. by apply grows_silent. Qed.

Lemma grows_raise {A} e : grows P (@raise A e).
Proof. by apply grows_silent. Qed.

Lemma grows_lift {A} (o : outcome A) : grows P (lift o).
Proof. by apply grows_silent. Qed.

Lemma grows_get_req : grows P get_req.
Proof. by apply grows_silent. Qed.

Lemma grows_get_resp : grows P get_resp.
Proof. by apply grows_silent. Qed.

Lemma grows_put_req r : grows P (put_req r).
Proof. by apply grows_silent. Qed.

Lemma grows_put_resp r : grows P (put_resp r).
Proof. by apply grows_silent. Qed.

Lemma grows_assert b : grows P (assert b).
Proof. by destruct b; apply grows_silent. Qed.

Lemma grows_getattr obj name : grows P (getattr obj name).
Proof. unfold getattr. by destruct (attrs obj !! name); apply grows_silent. Qed.

Lemma grows_invoke_req_resp f : grows P (invoke_req_resp f).
Proof.
  apply grows_silent. intros w. unfold invoke_req_resp.
  by destruct (apply_req_resp f (w_req w) (w_resp w)).
Qed.

Lemma grows_log e : P e → grows P (log e).
Proof. intros He w. exists [e]. simpl. auto. Qed.

Lemma grows_bind {A B} (m : M A) (f : A → M B) :
  grows P m → (∀ a, grows P (f a)) → grows P (m ≫= f).
Proof.
  intros Hm Hf w. rewrite bind_run.
  destruct (Hm w) as (t1 & E1 & F1).
  destruct (m w) as [[a|e] w1]; simpl in *.
  - destruct (Hf a w1) as (t2 & E2 & F2).
    exists (t1 ++ t2). rewrite E2, E1, app_assoc.
    split; [done | by apply Forall_app].
  - by exists t1.
Qed.

Lemma grows_try_except {A} (m h : M A) cls :
  grows P m → grows P h → grows P (try_except m cls h).
Proof.
  intros Hm Hh w. unfold try_except.
  destruct (Hm w) as (t1 & E1 & F1).
  destruct (m w) as [[a|e] w1]; simpl in *; [by exists t1|].
  destruct (decide (e = cls)); [|by exists t1].
  destruct (Hh w1) as (t2 & E2 & F2).
  exists (t1 ++ t2). rewrite E2, E1, app_assoc.
  split; [done | by apply Forall_app].
Qed.

End Grows.

(** Decompose a computation along its binds and handlers. *)
Ltac grows_tac :=
  repeat first
    [ apply grows_bind; [|intros ?]
    | apply grows_try_except
    | apply grows_log
    | apply grows_ret | apply grows_raise | apply grows_lift
    | apply grows_get_req | apply grows_get_resp
    | apply grows_put_req | apply grows_put_resp
    | apply grows_assert | apply grows_getattr
    | apply grows_invoke_req_resp
    | match goal with |- grows _ (let '(_, _) := ?x in _) => destruct x end
    | match goal with |- grows _ (match ?x with _ => _ end) => destruct x end ].

Section DispatchGrows.
Context {ext : externals}.

Lemma hooks_grows view : grows (is_hook view) (hooks view).
Proof. unfold hooks, hook. grows_tac; by eexists. Qed.

Lemma class_based_grows handler :
  grows (λ e, e ≠ EvDefaultResponse) (class_based handler).
Proof.
  unfold class_based, view_step, schema_step, wsgi_step, graphql_response,
    hooks, hook, invoke_noargs, invoke_query, invoke_wsgi.
  grows_tac; done.
Qed.
End DispatchGrows.

(** ** Route resolution and the first call *)

Section DispatchFacts.
Context {ext : externals}.

Lemma path_matches_route_items_getitem items url handler :
  dict.getitem items url = Return handler →
  path_matches_route_items items url = Some url.
Proof.
  induction items as [|[route view] rest IH]; simpl; [done|].
  destruct (decide (url = route)) as [->|]; auto.
Qed.

Lemma truthy_Some route : route ≠ "" → truthy (Some route) = true.
Proof. intros Hne. unfold truthy. by rewrite bool_decide_eq_false_2. Qed.

(** A registered, non-empty path resolves to its handler, and the
    dispatcher starts with the two-argument call. *)
Lemma dispatch_registered self req handler :
  path req ≠ "" →
  dict.getitem (routes self) (path req) = Return handler →
  _dispatch_request self req =
    (early ← try_except
               (log (EvCall (oid handler));; invoke_req_resp handler;;
                mret None)
               TypeError (class_based handler);
     return_value early) (init_world req).
Proof.
  intros Hne Hget.
  unfold _dispatch_request, dispatch_body, path_matches_route.
  unfold mbind at 1, M_bind at 1. cbn [get_req init_world w_req].
  rewrite (path_matches_route_items_getitem _ _ _ Hget), truthy_Some by done.
  cbn [default]. unfold dispatch_route.
  do 2 (unfold mbind at 1, M_bind at 1). unfold lift at 1, id.
  by rewrite Hget.
Qed.

(** The guarded two-argument call, by the outcome of the call. *)
Lemma call_step_run handler (k : M (option pyval)) w r resp' :
  apply_req_resp handler (w_req w) (w_resp w) = (r, resp') →
  let w' := {| w_req := w_req w; w_resp := resp';
               w_trace := w_trace w ++ [EvCall (oid handler)] |} in
  try_except
    (log (EvCall (oid handler));; invoke_req_resp handler;; mret None)
    TypeError k w
  = match r with
    | Return _ => (Return None, w')
    | Raise e => if decide (e = TypeError) then k w' else (Raise e, w')
    end.
Proof.
  intros Happ. unfold try_except, mbind, M_bind, log, invoke_req_resp. cbn.
  rewrite Happ. by destruct r as [[]|e].
Qed.

(** On a registered, non-empty path the first call issued is the
    two-argument call of the registered handler, and the default
    response is never produced. *)
Lemma dispatch_registered_trace self req handler :
  path req ≠ "" →
  dict.getitem (routes self) (path req) = Return handler →
  ∃ t, w_trace (_dispatch_request self req).2 = EvCall (oid handler) :: t
       ∧ Forall (λ e, e ≠ EvDefaultResponse) t.
Proof.
  intros Hne Hget. rewrite (dispatch_registered _ _ _ Hne Hget).
  destruct (apply_req_resp handler req (Response_new req))
    as [r resp'] eqn:Happ.
  rewrite bind_run.
  rewrite (call_step_run handler (class_based handler) (init_world req)
             r resp' Happ).
  destruct r as [[]|e]; cbn [w_req w_resp w_trace init_world app].
  - by exists [].
  - destruct (decide (e = TypeError)); [|by exists []].
    destruct (class_based_grows handler
                {| w_req := req; w_resp := resp';
                   w_trace := [EvCall (oid handler)] |}) as (t & Et & Ft).
    destruct (class_based handler _) as [[early|e'] w1]; simpl in *.
    + exists t. by destruct early.
    + by exists t.
Qed.
End DispatchFacts.

(** ** Errors raised by a function handler *)

Section Propagation.
Context {ext : externals}.

(** C1 (as amended).  Let the two-argument call of the handler
    registered at the request's path end with outcome [r], leaving
    the response [resp'].  An error other than TypeError propagates
    out of dispatch, and no other call is made.  A TypeError (raised
    by the call itself on a calling-convention mismatch, or from
    inside the body of a handler that accepted both arguments) is
    caught: the dispatcher falls through to the class-based cascade,
    starting from the response as the handler left it.  A normal
    return ends the dispatch with that response. *)
Theorem only_TypeError_falls_through self req handler r resp' :
  path req ≠ "" →
  dict.getitem (routes self) (path req) = Return handler →
  apply_req_resp handler req (Response_new req) = (r, resp') →
  let w' := {| w_req := req; w_resp := resp';
               w_trace := [EvCall (oid handler)] |} in
  (∀ e, r = Raise e → e ≠ TypeError →
        _dispatch_request self req = (Raise e, w'))
  ∧ (r = Raise TypeError →
     _dispatch_request self req = (class_based handler ≫= return_value) w')
  ∧ (r = Return () →
     _dispatch_request self req = (Return (RetResp resp'), w')).
Proof.
  intros Hne Hget Happ w'.
  rewrite (dispatch_registered _ _ _ Hne Hget), bind_run.
  rewrite (call_step_run handler (class_based handler) (init_world req)
             r resp' Happ).
  cbn [w_req w_resp w_trace init_world app]. fold w'.
  split; [|split].
  - intros e -> Hne'. by rewrite decide_False.
  - intros ->. by rewrite decide_True, bind_run.
  - by intros ->.
Qed.

End Propagation.

Lemma only_TypeError_falls_through_witness :
  path (samples.request "GET" "/crash") ≠ ""
  ∧ apply_req_resp samples.crash (samples.request "GET" "/crash")
      (Response_new (externals := samples.lib) (samples.request "GET" "/crash"))
    = (Raise ValueError,
       {| status_code := PInt 200; text_ := PNone; media := PNone |})
  ∧ _dispatch_request (ext := samples.lib)
      (samples.api1 "/crash" samples.crash) (samples.request "GET" "/crash")
    = (Raise ValueError,
       {| w_req := samples.request "GET" "/crash";
          w_resp := {| status_code := PInt 200; text_ := PNone;
                       media := PNone |};
          w_trace := [EvCall 4] |}).
Proof.
  split; [done|]. split; [reflexivity|].
  apply (only_TypeError_falls_through (ext := samples.lib)
           (samples.api1 "/crash" samples.crash)
           (samples.request "GET" "/crash") samples.crash
           (Raise ValueError)
           {| status_code := PInt 200; text_ := PNone; media := PNone |});
    [done | reflexivity | reflexivity | reflexivity | done].
Defined.

(** C1, counterexample.  [boom] accepts [(req, resp)] and raises
    TypeError while executing; dispatching its route does not raise:
    the dispatcher goes on to call [boom()] and
    [boom(environ=.., start_response=..)], marks the request as
    dispatched, and returns the response. *)
Lemma in_body_TypeError_is_swallowed :
  call_req_resp samples.boom = Accepts samples.boom_body
  ∧ (samples.boom_body (samples.request "GET" "/boom")
       (Response_new (externals := samples.lib)
          (samples.request "GET" "/boom"))).1
    = Raise TypeError
  ∧ _dispatch_request (ext := samples.lib)
      (samples.api1 "/boom" samples.boom) (samples.request "GET" "/boom")
    = (Return (RetResp {| status_code := PInt 200; text_ := PStr "partial";
                          media := PNone |}),
       {| w_req := set_dispatched true (samples.request "GET" "/boom");
          w_resp := {| status_code := PInt 200; text_ := PStr "partial";
                       media := PNone |};
          w_trace := [EvCall 3; EvFactory 3; EvWsgi 3] |}).
Proof. repeat split. Qed.

(** ** The empty path *)

Section EmptyPath.
Context {ext : externals}.

(** C2, at the input where the code departs from it.  A handler is
    registered at the empty path and the request's path is the empty
    string: [path_matches_route] returns the empty string, [if route:]
    takes it for false, and the dispatcher produces the default 404
    response without calling the handler. *)
Theorem empty_path_gets_default_response self req handler :
  dict.getitem (routes self) "" = Return handler →
  path req = "" →
  let not_found := {| status_code := PInt HTTP_404;
                      text_ := PStr "Not found.";
                      media := media (Response_new req) |} in
  path_matches_route self (path req) = Some ""
  ∧ _dispatch_request self req
    = (Return (RetResp not_found),
       {| w_req := req; w_resp := not_found;
          w_trace := [EvDefaultResponse] |}).
Proof.
  intros Hget Hpath not_found.
  assert (path_matches_route self (path req) = Some "") as Hroute.
  { rewrite Hpath. by eapply path_matches_route_items_getitem. }
  split; [done|].
  unfold _dispatch_request, dispatch_body.
  unfold mbind at 1, M_bind at 1. cbn [get_req init_world w_req].
  by rewrite Hroute.
Qed.

End EmptyPath.

Lemma empty_path_gets_default_response_witness :
  dict.getitem (routes (samples.api1 "" samples.hello)) "" = Return samples.hello
  ∧ path (samples.request "GET" "") = ""
  ∧ _dispatch_request (ext := samples.lib) (samples.api1 "" samples.hello)
      (samples.request "GET" "")
    = (Return (RetResp {| status_code := PInt 404; text_ := PStr "Not found.";
                          media := PNone |}),
       {| w_req := samples.request "GET" "";
          w_resp := {| status_code := PInt 404; text_ := PStr "Not found.";
                       media := PNone |};
          w_trace := [EvDefaultResponse] |}).
Proof.
  split; [reflexivity|]. split; [reflexivity|].
  apply (empty_path_gets_default_response (ext := samples.lib)
           (samples.api1 "" samples.hello) (samples.request "GET" "")
           samples.hello);
    reflexivity.
Defined.

(** ** The cascade below the two-argument call *)

(** Unfold the primitives of the monad and reduce. *)
Ltac run :=
  cbv beta iota zeta delta
    [mbind M_bind mret M_ret lift log raise get_req get_resp put_req put_resp
     try_except assert getattr invoke_noargs invoke_query invoke_wsgi];
  cbn [w_req w_resp w_trace fst snd].

Section Cascade.
Context {ext : externals}.

(** When the factory call raises TypeError the handler itself is the
    view, tried as a schema and as a raw gateway application before
    the hook step. *)
Lemma class_based_raw_view handler w :
  apply_noargs handler = Raise TypeError →
  class_based handler w =
    (early ← schema_step handler;
     match early with
     | Some v => mret (Some v)
     | None => hooks handler;; mret None
     end) (with_event w (EvFactory (oid handler))).
Proof.
  intros Hno. unfold class_based, view_step, with_event. run.
  rewrite Hno. rewrite decide_True by done.
  by destruct (schema_step handler _) as [[early|e] w1].
Qed.

(** When the factory call returns, its result is the view and the
    hook step follows at once. *)
Lemma class_based_factory handler view w :
  apply_noargs handler = Return view →
  class_based handler w =
    (hooks view;; mret None) (with_event w (EvFactory (oid handler))).
Proof.
  intros Hno. unfold class_based, view_step, with_event. run.
  by rewrite Hno.
Qed.

(** The raw gateway attempt, by the outcome of the call. *)
Lemma wsgi_step_run view w :
  let w1 := {| w_req := set_dispatched true (w_req w); w_resp := w_resp w;
               w_trace := w_trace w ++ [EvWsgi (oid view)] |} in
  wsgi_step view w =
    match apply_wsgi view (_environ (w_req w)) (_start_response (w_req w)) with
    | Return v => (Return (Some v), w1)
    | Raise e => if decide (e = TypeError) then (Return None, w1)
                 else (Raise e, w1)
    end.
Proof.
  unfold wsgi_step. run.
  by destruct (apply_wsgi view _ _) as [v|e].
Qed.

(** A view without [execute] goes straight to the raw gateway
    attempt. *)
Lemma schema_step_no_execute view w :
  attrs view !! "execute" = None →
  schema_step view w = wsgi_step view w.
Proof.
  intros Hno. unfold schema_step, hasattr.
  rewrite Hno, bool_decide_eq_false_2 by by intros [? ?].
  by run.
Qed.


(** A single hook leaves the request as it is. *)
Lemma hook_req view name w : w_req (hook view name w).2 = w_req w.
Proof.
  unfold hook, invoke_req_resp. run.
  destruct (attrs view !! name) as [h|]; cbn; [|done].
  destruct (apply_req_resp h (w_req w) (w_resp w)) as [[[]|e] resp']; cbn;
    [done|]. by destruct (decide (e = AttributeError)).
Qed.

Lemma hooks_req view w : w_req (hooks view w).2 = w_req w.
Proof.
  unfold hooks. rewrite bind_run.
  pose proof (hook_req view "on_request" w) as H1.
  destruct (hook view "on_request" w) as [[[]|e] w1]; cbn in *; [|done].
  rewrite bind_run. cbn. by rewrite hook_req.
Qed.

(** A missing hook is skipped: no call, no error, no change. *)
Lemma hook_missing view name w :
  attrs view !! name = None → hook view name w = (Return (), w).
Proof.
  intros Hno. unfold hook. run. by rewrite Hno.
Qed.

End Cascade.

Section RawView.
Context {ext : externals}.

(** A handler that rejects, or fails with TypeError under, both the
    two-argument and the zero-argument call is itself the view. *)
Lemma dispatch_raw_view self req view resp1 :
  path req ≠ "" →
  dict.getitem (routes self) (path req) = Return view →
  apply_req_resp view req (Response_new req) = (Raise TypeError, resp1) →
  apply_noargs view = Raise TypeError →
  _dispatch_request self req =
    (early ← schema_step view;
     match early with
     | Some v => mret (RetWsgi v)
     | None => hooks view;; return_value None
     end)
    {| w_req := req; w_resp := resp1;
       w_trace := [EvCall (oid view); EvFactory (oid view)] |}.
Proof.
  intros Hne Hget Happ Hno.
  rewrite (dispatch_registered _ _ _ Hne Hget), bind_run.
  rewrite (call_step_run view (class_based view) (init_world req)
             _ resp1 Happ).
  rewrite decide_True by done.
  rewrite (class_based_raw_view _ _ Hno). unfold with_event.
  cbn [w_req w_resp w_trace init_world app].
  rewrite !bind_run.
  destruct (schema_step view _) as [[[v|]|e] w1]; [done| |done].
  rewrite !bind_run. by destruct (hooks view w1) as [[[]|e] w2].
Qed.


(** C4, at the input where the code departs from it.  The cascade
    reaches the raw gateway attempt on a view without [execute], and
    the call is rejected with TypeError: the request has been marked
    as dispatched before the call and stays marked while the
    dispatcher falls through to the hook step. *)
Theorem rejected_gateway_call_leaves_flag_set self req view resp1 :
  path req ≠ "" →
  dict.getitem (routes self) (path req) = Return view →
  apply_req_resp view req (Response_new req) = (Raise TypeError, resp1) →
  apply_noargs view = Raise TypeError →
  attrs view !! "execute" = None →
  apply_wsgi view (_environ req) (_start_response req) = Raise TypeError →
  dispatched req = false →
  _dispatch_request self req =
    (hooks view;; return_value None)
      {| w_req := set_dispatched true req; w_resp := resp1;
         w_trace := [EvCall (oid view); EvFactory (oid view);
                     EvWsgi (oid view)] |}
  ∧ dispatched (w_req (_dispatch_request self req).2) = true.
Proof.
  intros Hne Hget Happ Hno Hex Hwsgi _.
  assert (_dispatch_request self req =
          (hooks view;; return_value None)
            {| w_req := set_dispatched true req; w_resp := resp1;
               w_trace := [EvCall (oid view); EvFactory (oid view);
                           EvWsgi (oid view)] |}) as Hd.
  { rewrite (dispatch_raw_view _ _ _ _ Hne Hget Happ Hno), bind_run.
    rewrite (schema_step_no_execute _ _ Hex), wsgi_step_run.
    cbn [w_req w_resp w_trace app]. by rewrite Hwsgi, decide_True. }
  split; [done|]. rewrite Hd, bind_run.
  pose proof (hooks_req view
    {| w_req := set_dispatched true req; w_resp := resp1;
       w_trace := [EvCall (oid view); EvFactory (oid view);
                   EvWsgi (oid view)] |}) as Hreq.
  destruct (hooks view _) as [[[]|e] w2]; unfold return_value; run;
    cbn in Hreq; by rewrite Hreq.
Qed.

(** The raw gateway call that succeeds: the request is marked and
    the call's value is returned as it is. *)
Lemma accepted_gateway_call_returns_value self req view resp1 v :
  path req ≠ "" →
  dict.getitem (routes self) (path req) = Return view →
  apply_req_resp view req (Response_new req) = (Raise TypeError, resp1) →
  apply_noargs view = Raise TypeError →
  attrs view !! "execute" = None →
  apply_wsgi view (_environ req) (_start_response req) = Return v →
  _dispatch_request self req =
    (Return (RetWsgi v),
     {| w_req := set_dispatched true req; w_resp := resp1;
        w_trace := [EvCall (oid view); EvFactory (oid view);
                    EvWsgi (oid view)] |}).
Proof.
  intros Hne Hget Happ Hno Hex Hwsgi.
  rewrite (dispatch_raw_view _ _ _ _ Hne Hget Happ Hno), bind_run.
  rewrite (schema_step_no_execute _ _ Hex), wsgi_step_run.
  cbn [w_req w_resp w_trace app]. by rewrite Hwsgi.
Qed.

End RawView.



Lemma rejected_gateway_call_leaves_flag_set_witness :
  dispatched (samples.request "GET" "/r") = false
  ∧ apply_wsgi samples.resource PNone PNone = Raise TypeError
  ∧ _dispatch_request (ext := samples.lib)
      (samples.api1 "/r" samples.resource) (samples.request "GET" "/r")
    = (hooks samples.resource;; return_value None)
        {| w_req := set_dispatched true (samples.request "GET" "/r");
           w_resp := {| status_code := PInt 200; text_ := PNone;
                        media := PNone |};
           w_trace := [EvCall 10; EvFactory 10; EvWsgi 10] |}
  ∧ dispatched
      (w_req (_dispatch_request (ext := samples.lib)
                (samples.api1 "/r" samples.resource)
                (samples.request "GET" "/r")).2) = true.
Proof.
  do 2 (split; [reflexivity|]).
  apply (rejected_gateway_call_leaves_flag_set (ext := samples.lib)
           (samples.api1 "/r" samples.resource) (samples.request "GET" "/r")
           samples.resource
           {| status_code := PInt 200; text_ := PNone; media := PNone |});
    solve [done | reflexivity].
Defined.

(** ** GraphQL query resolution *)

Section QueryResolution.

Implicit Types (req : Request) (v : pyval).

Lemma resolve_json req :
  str_contains "json" (mimetype req) = true →
  _resolve_graphql_query req =
    match json req with
    | Return j => getitem j "query"
    | Raise e => Raise e
    end.
Proof. intros Hjson. unfold _resolve_graphql_query. by rewrite Hjson. Qed.

Lemma resolve_params req :
  str_contains "json" (mimetype req) = false →
  no_query_in_data req →
  _resolve_graphql_query req =
    match params req !! "query" with
    | Some vs => first_value vs
    | None => match params req !! "q" with
              | Some vs => first_value vs
              | None => Return (PStr (text req))
              end
    end.
Proof.
  intros Hjson Hdata. unfold _resolve_graphql_query. rewrite Hjson.
  unfold no_query_in_data in Hdata.
  destruct (data req) as [s|m]; [done|].
  destruct Hdata as [-> ->]. done.
Qed.

(** Query resolution for well-formed inputs, first match wins.
    (1) JSON content type: the [query] field of the parsed JSON body,
        KeyError when the body has no such field.
    (2) Otherwise, a structured body: its [query] value, else its [q]
        value.
    (3) Otherwise, the URL parameters: the first value of [query], else
        the first value of [q].
    (4) Otherwise the raw request text. *)
Theorem graphql_query_precedence req :
  (str_contains "json" (mimetype req) = true →
   ∀ d, json req = Return (PDict d) →
     (∀ v, d !! "query" = Some v → _resolve_graphql_query req = Return v)
     ∧ (d !! "query" = None → _resolve_graphql_query req = Raise KeyError))
  ∧ (str_contains "json" (mimetype req) = false →
     (∀ m, data req = Fields m →
        (∀ v, m !! "query" = Some v → _resolve_graphql_query req = Return v)
        ∧ (∀ v, m !! "query" = None → m !! "q" = Some v →
                _resolve_graphql_query req = Return v))
     ∧ (no_query_in_data req →
        (∀ x xs, params req !! "query" = Some (x :: xs) →
                 _resolve_graphql_query req = Return (PStr x))
        ∧ (∀ x xs, params req !! "query" = None →
                   params req !! "q" = Some (x :: xs) →
                   _resolve_graphql_query req = Return (PStr x))
        ∧ (params req !! "query" = None → params req !! "q" = None →
           _resolve_graphql_query req = Return (PStr (text req))))).
Proof.
  split.
  - intros Hjson d Hd. rewrite (resolve_json _ Hjson), Hd. simpl.
    split; [by intros v ->|by intros ->].
  - intros Hjson. split.
    + intros m Hm. unfold _resolve_graphql_query. rewrite Hjson, Hm.
      split; [by intros v ->|by intros v -> ->].
    + intros Hdata. rewrite (resolve_params _ Hjson Hdata).
      repeat split.
      * by intros x xs ->.
      * by intros x xs -> ->.
      * by intros -> ->.
Qed.

End QueryResolution.

Lemma graphql_query_precedence_witness :
  _resolve_graphql_query samples.json_request = Return (PStr "{ping}")
  ∧ _resolve_graphql_query samples.json_request_no_query = Raise KeyError
  ∧ _resolve_graphql_query samples.form_request = Return (PStr "{ping}")
  ∧ _resolve_graphql_query samples.params_request = Return (PStr "{ping}")
  ∧ _resolve_graphql_query (samples.query_request "/graphql")
    = Return (PStr "{ping}").
Proof.
  split; [|split; [|split; [|split]]].
  - apply (proj1 (graphql_query_precedence samples.json_request) eq_refl
             {[ "query" := PStr "{ping}" ]} eq_refl); reflexivity.
  - apply (proj1 (graphql_query_precedence samples.json_request_no_query)
             eq_refl {[ "q" := PStr "{ping}" ]} eq_refl); reflexivity.
  - apply (proj1 (proj2 (graphql_query_precedence samples.form_request)
                    eq_refl) {[ "q" := PStr "{ping}" ]} eq_refl);
      reflexivity.
  - apply (proj1 (proj2 (proj2 (graphql_query_precedence
                                  samples.params_request) eq_refl) I))
      with (xs := ["{second}"]); reflexivity.
  - apply (proj2 (proj2 (proj2 (proj2 (graphql_query_precedence
                                         (samples.query_request "/graphql"))
                                  eq_refl) I)));
      reflexivity.
Defined.

Lemma json_body_not_an_object req l :
  str_contains "json" (mimetype req) = true →
  json req = Return (PList l) →
  _resolve_graphql_query req = Raise TypeError.
Proof. intros Hjson Hl. by rewrite (resolve_json _ Hjson), Hl. Qed.

(** ** The hook step *)

Section Hooks.

Implicit Types (view : pyobj) (w : world).

(** A hook that is present and returns. *)
Lemma hook_returns view name w h resp' :
  attrs view !! name = Some h →
  apply_req_resp h (w_req w) (w_resp w) = (Return (), resp') →
  hook view name w =
    (Return (), {| w_req := w_req w; w_resp := resp';
                   w_trace := w_trace w ++ [EvHook (oid view) name] |}).
Proof.
  intros Hattr Happ. unfold hook, invoke_req_resp. run.
  rewrite Hattr. cbn. by rewrite Happ.
Qed.

(** At the hook step of a GET dispatch, a view exposing both
    [on_request] and [on_get] has [on_request] called first and
    [on_get] second, once each (each hook returning normally, the
    second acting on the response the first one left).  A hook the
    view does not expose is skipped: no call, no error, nothing
    changed; the step then goes on to the next hook. *)
Theorem hooks_order_and_skipping view w :
  (∀ on_request on_get resp1 resp2,
      method (w_req w) = "GET" →
      attrs view !! "on_request" = Some on_request →
      attrs view !! "on_get" = Some on_get →
      apply_req_resp on_request (w_req w) (w_resp w) = (Return (), resp1) →
      apply_req_resp on_get (w_req w) resp1 = (Return (), resp2) →
      hooks view w =
        (Return (),
         {| w_req := w_req w; w_resp := resp2;
            w_trace := w_trace w ++ [EvHook (oid view) "on_request";
                                     EvHook (oid view) "on_get"] |}))
  ∧ (∀ name, attrs view !! name = None → hook view name w = (Return (), w))
  ∧ (attrs view !! "on_request" = None →
     hooks view w = hook view ("on_" +:+ lower (method (w_req w))) w)
  ∧ (attrs view !! "on_request" = None →
     attrs view !! ("on_" +:+ lower (method (w_req w))) = None →
     hooks view w = (Return (), w)).
Proof.
  split; [|split; [|split]].
  - intros on_request on_get resp1 resp2 Hget H1 H2 Hr1 Hr2.
    unfold hooks. rewrite bind_run, (hook_returns _ _ _ _ _ H1 Hr1).
    rewrite bind_run. cbn [get_req w_req]. rewrite Hget.
    change ("on_" +:+ lower "GET") with "on_get".
    rewrite (hook_returns view "on_get"
               {| w_req := w_req w; w_resp := resp1;
                  w_trace := w_trace w ++ [EvHook (oid view) "on_request"] |}
               on_get resp2 H2 Hr2).
    cbn [w_req w_resp w_trace]. by rewrite <- app_assoc.
  - intros name Hno. by apply hook_missing.
  - intros Hno. unfold hooks.
    by rewrite bind_run, (hook_missing _ _ _ Hno).
  - intros Hno Hmeth. unfold hooks.
    rewrite bind_run, (hook_missing _ _ _ Hno), bind_run.
    cbn [get_req w_req]. by rewrite (hook_missing _ _ _ Hmeth).
Qed.

End Hooks.

Lemma hooks_order_and_skipping_witness :
  hooks samples.resource
    {| w_req := samples.request "GET" "/r";
       w_resp := {| status_code := PInt 200; text_ := PNone; media := PNone |};
       w_trace := [] |}
  = (Return (),
     {| w_req := samples.request "GET" "/r";
        w_resp := {| status_code := PInt 200; text_ := PStr "[request][get]";
                     media := PNone |};
        w_trace := [EvHook 10 "on_request"; EvHook 10 "on_get"] |}).
Proof.
  apply (proj1 (hooks_order_and_skipping samples.resource
                  {| w_req := samples.request "GET" "/r";
                     w_resp := {| status_code := PInt 200; text_ := PNone;
                                  media := PNone |};
                     w_trace := [] |})
           (samples.method_ 11 "[request]") (samples.method_ 12 "[get]")
           {| status_code := PInt 200; text_ := PStr "[request]";
              media := PNone |});
    reflexivity.
Defined.

(** The same on a whole dispatch: a resource class registered at
    [/r], a GET request.  The class rejects the two-argument call, the
    factory call makes the instance, and the two hooks run in order. *)
Example class_view_get_dispatch :
  _dispatch_request (ext := samples.lib)
    (samples.api1 "/r" samples.Resource) (samples.request "GET" "/r")
  = (Return (RetResp {| status_code := PInt 200;
                        text_ := PStr "[request][get]"; media := PNone |}),
     {| w_req := samples.request "GET" "/r";
        w_resp := {| status_code := PInt 200; text_ := PStr "[request][get]";
                     media := PNone |};
        w_trace := [EvCall 13; EvFactory 13; EvHook 10 "on_request";
                    EvHook 10 "on_get"] |}).
Proof. reflexivity. Qed.

(** ** Route registration *)

Section DictFacts.

Context {V : Type}.
Implicit Types (d : list (string * V)) (k : string) (v : V).

Lemma getitem_setitem d k v : dict.getitem (dict.setitem d k v) k = Return v.
Proof.
  induction d as [|[k' v'] d IH]; simpl.
  - by rewrite decide_True.
  - destruct (decide (k = k')) as [->|Hne]; simpl.
    + by rewrite decide_True.
    + by rewrite decide_False.
Qed.

Lemma getitem_setitem_ne d k k' v :
  k ≠ k' → dict.getitem (dict.setitem d k v) k' = dict.getitem d k'.
Proof.
  intros Hne. induction d as [|[k0 v0] d IH]; simpl.
  - by rewrite decide_False.
  - destruct (decide (k = k0)) as [->|Hne0]; simpl.
    + by rewrite !decide_False.
    + by rewrite IH.
Qed.

Lemma contains_getitem d k v :
  dict.getitem d k = Return v → dict.contains d k = true.
Proof.
  induction d as [|[k' v'] d IH]; simpl; [done|].
  by destruct (decide (k = k')).
Qed.

(** Assigning to a key already present keeps the keys and their
    order. *)
Lemma setitem_keys d k v :
  dict.contains d k = true → (dict.setitem d k v).*1 = d.*1.
Proof.
  induction d as [|[k' v'] d IH]; simpl; [done|].
  destruct (decide (k = k')) as [->|Hne]; [done|].
  intros Hc. rewrite !fmap_cons. f_equal. by apply IH.
Qed.

End DictFacts.

Section Registration.

Context {ext : externals}.

(** The dispatch of a path depends on the application only through
    the handler stored at that path. *)
Lemma dispatch_depends_on_handler self1 self2 req handler :
  dict.getitem (routes self1) (path req) = Return handler →
  dict.getitem (routes self2) (path req) = Return handler →
  _dispatch_request self1 req = _dispatch_request self2 req.
Proof.
  intros H1 H2. unfold _dispatch_request, dispatch_body, path_matches_route.
  rewrite !bind_run. cbn [get_req init_world w_req].
  rewrite (path_matches_route_items_getitem _ _ _ H1),
    (path_matches_route_items_getitem _ _ _ H2).
  destruct (truthy (Some (path req))); [|done].
  cbn [default from_option id]. unfold dispatch_route.
  rewrite !bind_run. unfold lift. by rewrite H1, H2.
Qed.

(** With [old] registered at [route]: registering [new] there
    with the check on fails with AssertionError; with the check off it
    succeeds, [new] stands where [old] stood and the other routes are
    untouched.  From then on a dispatch of that path is decided by
    [new] alone (it is the dispatch of any application whose table
    maps the path to [new]), and on a non-empty path the first call
    issued is the call of [new], never the default response. *)
Theorem add_route_existing self route old new :
  dict.getitem (routes self) route = Return old →
  add_route self route new true = Raise AssertionError
  ∧ ∃ self',
      add_route self route new false = Return self'
      ∧ dict.getitem (routes self') route = Return new
      ∧ (routes self').*1 = (routes self).*1
      ∧ (∀ r, r ≠ route →
              dict.getitem (routes self') r = dict.getitem (routes self) r)
      ∧ ∀ req, path req = route →
          (∀ other, dict.getitem (routes other) route = Return new →
                    _dispatch_request self' req = _dispatch_request other req)
          ∧ (route ≠ "" →
             ∃ t, w_trace (_dispatch_request self' req).2
                  = EvCall (oid new) :: t
                  ∧ Forall (λ e, e ≠ EvDefaultResponse) t).
Proof.
  intros Hold. pose proof (contains_getitem _ _ _ Hold) as Hin.
  split.
  - unfold add_route. by rewrite Hin.
  - eexists. split; [reflexivity|]. cbn [routes].
    split; [apply getitem_setitem|].
    split; [by apply setitem_keys|].
    split; [intros r Hne; by apply getitem_setitem_ne|].
    intros req <-. split.
    + intros other Hother.
      eapply dispatch_depends_on_handler; [|done].
      apply getitem_setitem.
    + intros Hne. apply dispatch_registered_trace; [done|].
      apply getitem_setitem.
Qed.

End Registration.

Lemma add_route_existing_witness :
  add_route (samples.api1 "/a" samples.hello) "/a" samples.other true
  = Raise AssertionError
  ∧ ∃ self',
      add_route (samples.api1 "/a" samples.hello) "/a" samples.other false
      = Return self'
      ∧ routes self' = [("/a", samples.other)]
      ∧ _dispatch_request (ext := samples.lib) self' (samples.request "GET" "/a")
        = (Return (RetResp {| status_code := PInt 200; text_ := PStr "other";
                              media := PNone |}),
           {| w_req := samples.request "GET" "/a";
              w_resp := {| status_code := PInt 200; text_ := PStr "other";
                           media := PNone |};
              w_trace := [EvCall 2] |}).
Proof.
  destruct (add_route_existing (ext := samples.lib)
              (samples.api1 "/a" samples.hello) "/a" samples.hello
              samples.other eq_refl) as [Hdup (self' & Hadd & Hnew & _)].
  split; [exact Hdup|].
  exists self'. split; [exact Hadd|].
  injection Hadd as <-. split; reflexivity.
Defined.

(** ** Reverse lookup *)

Section ReverseLookup.

Implicit Types (self : API) (view : pyobj).

Lemma py_eq_refl view : py_eq view view = true.
Proof. unfold py_eq. by apply bool_decide_eq_true_2. Qed.

Lemma url_for_items_first_match before route stored after view :
  py_eq view stored = true →
  Forall (λ item, py_eq view item.2 = false) before →
  url_for_items (before ++ (route, stored) :: after) view = Return route.
Proof.
  intros Heq Hbefore.
  induction Hbefore as [|[r v] before Hv _ IH]; simpl in *.
  - by rewrite Heq.
  - by rewrite Hv.
Qed.

Lemma url_for_items_no_match items view :
  Forall (λ item, py_eq view item.2 = false) items →
  url_for_items items view = Raise ValueError.
Proof.
  induction 1 as [|[r v] items Hv _ IH]; simpl in *; [done|].
  by rewrite Hv.
Qed.

(** When some route stores an equal handler the scan succeeds, and
    what it returns is a route storing an equal handler. *)
Lemma url_for_items_found items view route stored :
  (route, stored) ∈ items →
  py_eq view stored = true →
  ∃ r v, url_for_items items view = Return r
         ∧ (r, v) ∈ items ∧ py_eq view v = true.
Proof.
  intros Hin Heq.
  induction items as [|[r0 v0] items IH]; [by apply elem_of_nil in Hin|].
  simpl. destruct (py_eq view v0) eqn:H0.
  - exists r0, v0. split; [done|]. split; [left|done].
  - apply elem_of_cons in Hin as [Hhd|Htl]; [congruence|].
    destruct (IH Htl) as (r & v & Hr & Hrv & Hv).
    exists r, v. split; [done|]. split; [by right|done].
Qed.

(** C8 (as amended).  Reverse lookup returns the first route, in
    registration order, whose stored handler equals the argument.  So a
    handler stored at [route] is mapped back to [route] when no route
    before it stores an equal handler, in particular when [route] is
    the only route storing it; a handler equal to no stored handler
    makes the lookup fail with ValueError. *)
Theorem url_for_first_match self view :
  (∀ before route stored after,
      routes self = before ++ (route, stored) :: after →
      py_eq view stored = true →
      Forall (λ item, py_eq view item.2 = false) before →
      url_for self view = Return route)
  ∧ (∀ route,
       (route, view) ∈ routes self →
       (∀ r stored, (r, stored) ∈ routes self →
                    py_eq view stored = true → r = route) →
       url_for self view = Return route)
  ∧ (Forall (λ item, py_eq view item.2 = false) (routes self) →
     url_for self view = Raise ValueError).
Proof.
  unfold url_for. split; [|split].
  - intros before route stored after -> Heq Hbefore.
    by apply url_for_items_first_match.
  - intros route Hin Honly.
    destruct (url_for_items_found _ _ _ _ Hin (py_eq_refl view))
      as (r & v & Hr & Hrv & Hv).
    rewrite Hr. f_equal. by apply (Honly r v).
  - apply url_for_items_no_match.
Qed.

End ReverseLookup.

Lemma url_for_first_match_witness :
  url_for (samples.api1 "/a" samples.hello) samples.hello = Return "/a"
  ∧ url_for (samples.api1 "/a" samples.hello) samples.other = Raise ValueError.
Proof.
  split.
  - apply (proj1 (url_for_first_match (samples.api1 "/a" samples.hello)
                    samples.hello) [] "/a" samples.hello []);
      [reflexivity | reflexivity | constructor].
  - apply (proj2 (proj2 (url_for_first_match
                           (samples.api1 "/a" samples.hello) samples.other))).
    repeat constructor.
Defined.

(** C8, counterexample.  [hello] is registered at [/a] and then at
    [/b]: it is a handler registered at [/b], and reverse lookup
    returns [/a]. *)
Lemma url_for_second_route_does_not_round_trip :
  add_route API_init "/a" samples.hello true
  = Return (samples.api1 "/a" samples.hello)
  ∧ add_route (samples.api1 "/a" samples.hello) "/b" samples.hello true
    = Return samples.api_two_routes
  ∧ dict.getitem (routes samples.api_two_routes) "/b" = Return samples.hello
  ∧ url_for samples.api_two_routes samples.hello = Return "/a"
  ∧ url_for samples.api_two_routes samples.hello ≠ Return "/b".
Proof. repeat split. discriminate. Qed.

(** ** The mount table *)

Section Mount.

Implicit Types (self : API) (calls : list (string * wsgi_callable)).

Lemma mount_all_snoc self calls route app :
  mount_all self (calls ++ [(route, app)])
  = mount (mount_all self calls) route app.
Proof. unfold mount_all. by rewrite foldl_app. Qed.

(** C9 (as amended).  [mount] stores the application under the given
    prefix, whatever the prefix.  After any sequence of [mount] calls
    none of whose prefixes is the root prefix, the root entry is still
    the gateway method installed at construction; a [mount] at the root
    prefix replaces that entry by the mounted application. *)
Theorem mount_keeps_root_unless_mounted_there calls :
  (Forall (λ c, c.1 ≠ "/") calls →
   apps (mount_all API_init calls) !! "/" = Some Self_wsgi_app)
  ∧ (∀ app, apps (mount (mount_all API_init calls) "/" app) !! "/"
            = Some app).
Proof.
  split.
  - induction calls as [|[route app] calls IH] using rev_ind;
      [intros _; reflexivity|].
    intros [Hcalls Hlast]%Forall_app.
    rewrite mount_all_snoc. cbn [mount apps].
    rewrite Forall_singleton in Hlast. simpl in Hlast.
    rewrite lookup_insert_ne by done. by apply IH.
  - intros app. cbn [mount apps]. apply lookup_insert_eq.
Qed.

End Mount.

Lemma mount_keeps_root_unless_mounted_there_witness :
  apps (mount_all API_init [("/admin", App samples.wsgi);
                            ("/docs", App samples.hello)]) !! "/"
  = Some Self_wsgi_app.
Proof.
  apply (proj1 (mount_keeps_root_unless_mounted_there
                  [("/admin", App samples.wsgi);
                   ("/docs", App samples.hello)])).
  repeat constructor; done.
Defined.

(** C9, counterexample.  One [mount] call at the root prefix: the root
    entry is the mounted application, no longer the gateway method
    installed at construction. *)
Lemma mount_at_root_replaces_root :
  apps API_init !! "/" = Some Self_wsgi_app
  ∧ apps (mount_all API_init [("/", App samples.wsgi)]) !! "/"
    = Some (App samples.wsgi)
  ∧ apps (mount_all API_init [("/", App samples.wsgi)]) !! "/"
    ≠ Some Self_wsgi_app.
Proof. repeat split. discriminate. Qed.

(** ** The cached client session *)

Section Session.

Context {ext : externals}.

Implicit Types (self : API) (s : RequestsSession).

(** Once a session is cached every call returns it and changes
    nothing. *)
Lemma session_cached self s base_url :
  _session self = Some s → session self base_url = (s, self).
Proof. intros Hs. unfold session. by rewrite Hs. Qed.

Lemma session_calls_cached self s urls :
  _session self = Some s →
  session_calls self urls = (replicate (length urls) s, self).
Proof.
  intros Hs. induction urls as [|url urls IH]; simpl; [done|].
  by rewrite (session_cached _ _ _ Hs), IH.
Qed.

(** C10.  On an application without a cached session, the first call
    [session(base_url)] makes a new session, mounts the adapter wrapping
    the application at [base_url], and caches it.  Every later call,
    whatever its [base_url], returns that same session (same identity,
    same adapter table: nothing is mounted at the later URL), creates
    no session and leaves the application as it is. *)
Theorem session_memoized self base_url :
  _session self = None →
  let s := (session self base_url).1 in
  let self' := (session self base_url).2 in
  session_id s = allocated self
  ∧ adapters s = <[ base_url := RequestsWSGIAdapter Self ]>
                   RequestsSession_adapters
  ∧ adapters s !! base_url = Some (RequestsWSGIAdapter Self)
  ∧ _session self' = Some s
  ∧ (∀ later_url, session self' later_url = (s, self'))
  ∧ (∀ later_urls,
       session_calls self' later_urls
       = (replicate (length later_urls) s, self')).
Proof.
  intros Hnone. unfold session at 1 2. rewrite Hnone. cbn [fst snd].
  cbn [session_id adapters _session].
  split; [done|]. split; [done|].
  split; [apply lookup_insert_eq|]. split; [done|].
  split.
  - intros later_url. by apply session_cached.
  - intros later_urls. by apply session_calls_cached.
Qed.

End Session.

Lemma session_memoized_witness :
  (session (ext := samples.lib) API_init "http://app").1
  = {| session_id := 0;
       adapters := {[ "http://app" := RequestsWSGIAdapter Self;
                      "http://" := HTTPAdapter;
                      "https://" := HTTPAdapter ]} |}
  ∧ session (ext := samples.lib)
      (session (ext := samples.lib) API_init "http://app").2 "http://other"
    = session (ext := samples.lib) API_init "http://app".
Proof.
  split; [reflexivity|].
  destruct (session_memoized (ext := samples.lib) API_init "http://app"
              eq_refl) as (_ & _ & _ & _ & Hlater & _).
  rewrite (Hlater "http://other"). by destruct (session _ _).
Defined.

(** * Further properties of the module *)

(** ** The route table *)

Section RouteTable.

Context {ext : externals}.

Implicit Types (self : API) (items : list (string * pyobj)).

Lemma path_matches_route_items_contains items url :
  path_matches_route_items items url
  = if dict.contains items url then Some url else None.
Proof.
  induction items as [|[route view] items IH]; simpl; [done|].
  by destruct (decide (url = route)) as [->|].
Qed.

(** X1.  [path_matches_route] is an exact-match lookup: it returns
    the URL itself when the URL is a key of the route table, and
    [None] otherwise. *)
Theorem path_matches_route_exact self url :
  path_matches_route self url
  = if dict.contains (routes self) url then Some url else None.
Proof. apply path_matches_route_items_contains. Qed.

Lemma dispatch_unregistered self req :
  dict.contains (routes self) (path req) = false →
  _dispatch_request self req
  = (Return (RetResp {| status_code := PInt HTTP_404;
                        text_ := PStr "Not found.";
                        media := media (Response_new req) |}),
     {| w_req := req;
        w_resp := {| status_code := PInt HTTP_404;
                     text_ := PStr "Not found.";
                     media := media (Response_new req) |};
        w_trace := [EvDefaultResponse] |}).
Proof.
  intros Hno. unfold _dispatch_request, dispatch_body, path_matches_route.
  rewrite bind_run. cbn [get_req init_world w_req].
  by rewrite path_matches_route_items_contains, Hno.
Qed.

(** X2.  A request whose path is not registered gets the default
    response, status 404 and text [Not found.], whatever its method;
    no handler is called and the request is left as it is. *)
Theorem unregistered_path_is_not_found self req :
  dict.contains (routes self) (path req) = false →
  (_dispatch_request self req).1
  = Return (RetResp {| status_code := PInt HTTP_404;
                       text_ := PStr "Not found.";
                       media := media (Response_new req) |})
  ∧ w_req (_dispatch_request self req).2 = req
  ∧ w_trace (_dispatch_request self req).2 = [EvDefaultResponse].
Proof. intros Hno. by rewrite (dispatch_unregistered _ _ Hno). Qed.

Lemma getitem_of_contains {V} (d : list (string * V)) k :
  dict.contains d k = true → ∃ v, dict.getitem d k = Return v.
Proof.
  induction d as [|[k' v'] d IH]; simpl; [done|].
  destruct (decide (k = k')); eauto.
Qed.

(** X3.  A request whose path is registered and not empty reaches the
    handler stored there: the first call the dispatcher issues is the
    two-argument call of that handler, and the default response is
    never produced. *)
Theorem registered_path_reaches_handler self req :
  path req ≠ "" →
  dict.contains (routes self) (path req) = true →
  ∃ handler t,
    dict.getitem (routes self) (path req) = Return handler
    ∧ w_trace (_dispatch_request self req).2 = EvCall (oid handler) :: t
    ∧ EvDefaultResponse ∉ t.
Proof.
  intros Hne Hin. destruct (getitem_of_contains _ _ Hin) as [handler Hget].
  destruct (dispatch_registered_trace self req handler Hne Hget)
    as (t & Ht & Hall).
  exists handler, t. split; [done|]. split; [done|].
  intros Hdef. rewrite Forall_forall in Hall. by apply (Hall _ Hdef).
Qed.

(** Assigning to a key that is not present appends the entry. *)
Lemma setitem_fresh {V} (d : list (string * V)) k v :
  dict.contains d k = false → dict.setitem d k v = d ++ [(k, v)].
Proof.
  induction d as [|[k' v'] d IH]; simpl; [done|].
  destruct (decide (k = k')); [done|]. intros Hno. by rewrite IH.
Qed.

Lemma contains_elem_of_keys {V} (d : list (string * V)) k :
  dict.contains d k = true ↔ k ∈ d.*1.
Proof.
  induction d as [|[k' v'] d IH]; simpl.
  - split; [done|]. by intros ?%elem_of_nil.
  - rewrite elem_of_cons. destruct (decide (k = k')) as [->|Hne].
    + split; auto.
    + rewrite IH. split; [auto|]. by intros [?|?].
Qed.

Lemma setitem_keys_NoDup {V} (d : list (string * V)) k v :
  NoDup d.*1 → NoDup (dict.setitem d k v).*1.
Proof.
  intros Hd. destruct (dict.contains d k) eqn:Hin.
  - by rewrite setitem_keys.
  - rewrite setitem_fresh, fmap_app by done. simpl.
    apply NoDup_app. split; [done|]. split; [|apply NoDup_singleton].
    intros x Hx ->%list_elem_of_singleton.
    apply contains_elem_of_keys in Hx. congruence.
Qed.

Lemma add_route_appends self path view check_existing :
  dict.contains (routes self) path = false →
  add_route self path view check_existing
  = Return {| routes := routes self ++ [(path, view)];
              apps := apps self; _session := _session self;
              allocated := allocated self |}.
Proof.
  intros Hno. unfold add_route.
  by rewrite Hno, andb_false_r, setitem_fresh.
Qed.

(** X4.  Registering a handler at a path that is not yet in the table
    succeeds with or without the check; the new route is appended
    after the existing ones, which keep their order and handlers, the
    mounts and the cached session are untouched, and the path now
    resolves to the new handler. *)
Theorem add_route_fresh self path view check_existing :
  dict.contains (routes self) path = false →
  ∃ self',
    add_route self path view check_existing = Return self'
    ∧ routes self' = routes self ++ [(path, view)]
    ∧ apps self' = apps self
    ∧ _session self' = _session self
    ∧ dict.getitem (routes self') path = Return view
    ∧ path_matches_route self' path = Some path.
Proof.
  intros Hno. rewrite (add_route_appends _ _ _ _ Hno). eexists.
  split; [done|]. cbn [routes apps _session].
  assert (dict.getitem (routes self ++ [(path, view)]) path = Return view)
    as Hget.
  { rewrite <- (setitem_fresh _ _ _ Hno). apply getitem_setitem. }
  do 4 (split; [done|]).
  by eapply path_matches_route_items_getitem.
Qed.

Lemma add_route_keys_NoDup self path view check_existing self' :
  NoDup (routes self).*1 →
  add_route self path view check_existing = Return self' →
  NoDup (routes self').*1.
Proof.
  intros Hd. unfold add_route.
  destruct (check_existing && dict.contains (routes self) path); [done|].
  intros [= <-]. by apply setitem_keys_NoDup.
Qed.

(** X5.  Whatever sequence of registrations is made on a new
    application, with or without the check, the route table never
    holds a path twice. *)
Theorem add_routes_keeps_paths_unique calls self' :
  add_routes API_init calls = Return self' → NoDup (routes self').*1.
Proof.
  assert (∀ self, NoDup (routes self).*1 →
                  add_routes self calls = Return self' →
                  NoDup (routes self').*1) as Hgen.
  { induction calls as [|[[path view] c] calls IH]; simpl; intros self Hd.
    - by intros [= <-].
    - destruct (add_route self path view c) as [self1|e] eqn:Hadd; [|done].
      apply IH. by eapply add_route_keys_NoDup. }
  apply Hgen. simpl. constructor.
Qed.

Lemma path_matches_route_items_setitem_ne items path view url :
  url ≠ path →
  path_matches_route_items (dict.setitem items path view) url
  = path_matches_route_items items url.
Proof.
  intros Hne. induction items as [|[k v] items IH]; simpl.
  - by rewrite decide_False.
  - destruct (decide (path = k)) as [->|Hk]; simpl.
    + by rewrite !decide_False.
    + by rewrite IH.
Qed.

(** X6.  Registering or replacing the handler of one path changes
    nothing for the other paths: a request for any other path is
    dispatched exactly as before. *)
Theorem add_route_leaves_other_paths self path view check_existing self' req :
  add_route self path view check_existing = Return self' →
  models.path req ≠ path →
  _dispatch_request self' req = _dispatch_request self req.
Proof.
  unfold add_route.
  destruct (check_existing && dict.contains (routes self) path); [done|].
  intros [= <-] Hne.
  unfold _dispatch_request, dispatch_body, path_matches_route.
  rewrite !bind_run. cbn [get_req init_world w_req routes].
  rewrite path_matches_route_items_setitem_ne by done.
  destruct (path_matches_route_items (routes self) (models.path req))
    as [r|] eqn:Hr; [|done].
  assert (r = models.path req) as ->.
  { rewrite path_matches_route_items_contains in Hr.
    destruct (dict.contains _ _); congruence. }
  destruct (truthy _); [|done]. cbn [default from_option id].
  unfold dispatch_route. rewrite !bind_run. unfold lift. cbn [routes].
  by rewrite getitem_setitem_ne.
Qed.

End RouteTable.

Lemma unregistered_path_is_not_found_witness :
  (_dispatch_request (ext := samples.lib) (samples.api1 "/a" samples.hello)
     (samples.request "DELETE" "/a/")).1
  = Return (RetResp {| status_code := PInt 404; text_ := PStr "Not found.";
                       media := PNone |})
  ∧ w_req (_dispatch_request (ext := samples.lib)
             (samples.api1 "/a" samples.hello)
             (samples.request "DELETE" "/a/")).2
    = samples.request "DELETE" "/a/"
  ∧ w_trace (_dispatch_request (ext := samples.lib)
               (samples.api1 "/a" samples.hello)
               (samples.request "DELETE" "/a/")).2
    = [EvDefaultResponse].
Proof.
  apply (unregistered_path_is_not_found (ext := samples.lib)
           (samples.api1 "/a" samples.hello) (samples.request "DELETE" "/a/")).
  reflexivity.
Defined.

Lemma registered_path_reaches_handler_witness :
  ∃ handler t,
    dict.getitem (routes (samples.api1 "/a" samples.hello)) "/a"
    = Return handler
    ∧ w_trace (_dispatch_request (ext := samples.lib)
                 (samples.api1 "/a" samples.hello)
                 (samples.request "GET" "/a")).2
      = EvCall (oid handler) :: t
    ∧ EvDefaultResponse ∉ t.
Proof.
  apply (registered_path_reaches_handler (ext := samples.lib)
           (samples.api1 "/a" samples.hello) (samples.request "GET" "/a"));
    [done | reflexivity].
Defined.

Lemma add_route_fresh_witness :
  ∃ self',
    add_route (samples.api1 "/a" samples.hello) "/b" samples.other true
    = Return self'
    ∧ routes self' = [("/a", samples.hello); ("/b", samples.other)]
    ∧ apps self' = apps (samples.api1 "/a" samples.hello)
    ∧ _session self' = None
    ∧ dict.getitem (routes self') "/b" = Return samples.other
    ∧ path_matches_route self' "/b" = Some "/b".
Proof.
  apply (add_route_fresh (samples.api1 "/a" samples.hello) "/b"
           samples.other true).
  reflexivity.
Defined.

Lemma add_routes_keeps_paths_unique_witness :
  add_routes API_init [("/a", samples.hello, true);
                       ("/b", samples.hello, true);
                       ("/a", samples.other, false)]
  = Return {| routes := [("/a", samples.other); ("/b", samples.hello)];
              apps := apps API_init; _session := None; allocated := 0 |}
  ∧ NoDup ["/a"; "/b"].
Proof.
  split; [reflexivity|].
  apply (add_routes_keeps_paths_unique
           [("/a", samples.hello, true); ("/b", samples.hello, true);
            ("/a", samples.other, false)]
           {| routes := [("/a", samples.other); ("/b", samples.hello)];
              apps := apps API_init; _session := None; allocated := 0 |}).
  reflexivity.
Defined.

Lemma add_route_leaves_other_paths_witness :
  _dispatch_request (ext := samples.lib)
    {| routes := [("/a", samples.hello); ("/b", samples.other)];
       apps := apps API_init; _session := None; allocated := 0 |}
    (samples.request "GET" "/a")
  = _dispatch_request (ext := samples.lib) (samples.api1 "/a" samples.hello)
      (samples.request "GET" "/a").
Proof.
  apply (add_route_leaves_other_paths (ext := samples.lib)
           (samples.api1 "/a" samples.hello) "/b" samples.other true);
    [reflexivity | done].
Defined.

(** ** The decorator and reverse lookup *)

Section Decorator.

Context {ext : externals}.

Implicit Types (self : API) (items : list (string * pyobj)).

(** X7.  The [route] decorator registers with the check on and hands
    the function back unchanged: on a path already registered it fails
    with AssertionError; on a new path the function is appended to the
    route table, and a request for that path (when not empty) starts
    with the call of the decorated function. *)
Theorem route_decorator self path f :
  (dict.contains (routes self) path = true →
   methods.route self path f = Raise AssertionError)
  ∧ (dict.contains (routes self) path = false →
     ∃ self',
       methods.route self path f = Return (f, self')
       ∧ routes self' = routes self ++ [(path, f)]
       ∧ ∀ req, models.path req = path → path ≠ "" →
           ∃ t, w_trace (_dispatch_request self' req).2
                = EvCall (oid f) :: t
                ∧ EvDefaultResponse ∉ t).
Proof.
  unfold methods.route. split; intros Hin.
  - unfold add_route. by rewrite Hin.
  - rewrite (add_route_appends _ _ _ _ Hin). eexists.
    split; [done|]. split; [done|].
    intros req <- Hne.
    destruct (dispatch_registered_trace
                {| routes := routes self ++ [(models.path req, f)];
                   apps := apps self; _session := _session self;
                   allocated := allocated self |} req f Hne) as (t & Ht & Hall).
    { cbn [routes]. rewrite <- (setitem_fresh _ _ _ Hin).
      apply getitem_setitem. }
    exists t. split; [done|].
    intros Hdef. rewrite Forall_forall in Hall. by apply (Hall _ Hdef).
Qed.

Lemma getitem_NoDup items route view :
  NoDup items.*1 → (route, view) ∈ items →
  dict.getitem items route = Return view.
Proof.
  induction items as [|[k v] items IH]; simpl.
  - by intros _ ?%elem_of_nil.
  - intros [Hk Hd]%NoDup_cons [Hhd|Htl]%elem_of_cons.
    + injection Hhd as -> ->. by rewrite decide_True.
    + destruct (decide (route = k)) as [->|Hne]; [|by apply IH].
      exfalso. apply Hk. apply list_elem_of_fmap. by exists (k, view).
Qed.

(** X8.  On a table with unique paths, what reverse lookup returns is
    a registered route whose stored handler equals the argument: the
    path resolves, and dispatching it reaches that handler. *)
Theorem url_for_returns_registered_route self view route :
  NoDup (routes self).*1 →
  url_for self view = Return route →
  ∃ stored,
    dict.getitem (routes self) route = Return stored
    ∧ py_eq view stored = true
    ∧ path_matches_route self route = Some route.
Proof.
  intros Hd Hurl. unfold url_for in Hurl.
  assert (∃ stored, (route, stored) ∈ routes self ∧ py_eq view stored = true)
    as (stored & Hin & Heq).
  { revert Hurl. generalize (routes self). intros items.
    induction items as [|[k v] items IH]; simpl; [done|].
    destruct (py_eq view v) eqn:Hv.
    - intros [= ->]. exists v. split; [left|done].
    - intros Hrest. destruct (IH Hrest) as (stored & Hin & Heq).
      exists stored. split; [by right|done]. }
  pose proof (getitem_NoDup _ _ _ Hd Hin) as Hget.
  exists stored. split; [done|]. split; [done|].
  by eapply path_matches_route_items_getitem.
Qed.

(** X9.  Reverse lookup fails, with ValueError, exactly when no route
    stores a handler equal to the argument. *)
Theorem url_for_fails_iff_unregistered self view :
  url_for self view = Raise ValueError
  ↔ Forall (λ item, py_eq view item.2 = false) (routes self).
Proof.
  unfold url_for. split; [|apply url_for_items_no_match].
  generalize (routes self). intros items.
  induction items as [|[k v] items IH]; simpl; [by constructor|].
  destruct (py_eq view v) eqn:Hv; [done|].
  intros Hrest. constructor; [done|by apply IH].
Qed.

End Decorator.

Lemma route_decorator_witness :
  methods.route (samples.api1 "/a" samples.hello) "/a" samples.other
  = Raise AssertionError
  ∧ ∃ self',
      methods.route (samples.api1 "/a" samples.hello) "/b" samples.other
      = Return (samples.other, self')
      ∧ routes self' = [("/a", samples.hello); ("/b", samples.other)].
Proof.
  split.
  - apply (proj1 (route_decorator (ext := samples.lib)
                    (samples.api1 "/a" samples.hello) "/a" samples.other)).
    reflexivity.
  - destruct (proj2 (route_decorator (ext := samples.lib)
                       (samples.api1 "/a" samples.hello) "/b" samples.other)
                eq_refl) as (self' & Hroute & Hroutes & _).
    exists self'. split; [exact Hroute|exact Hroutes].
Defined.

Lemma url_for_returns_registered_route_witness :
  ∃ stored,
    dict.getitem (routes samples.api_two_routes) "/a" = Return stored
    ∧ py_eq samples.hello stored = true
    ∧ path_matches_route samples.api_two_routes "/a" = Some "/a".
Proof.
  apply (url_for_returns_registered_route samples.api_two_routes
           samples.hello "/a"); [|reflexivity].
  apply (NoDup_cons_2 "/a" ["/b"]); [|apply NoDup_singleton].
  by intros ?%list_elem_of_singleton.
Defined.

(** ** Class-based views and the schema attempt *)

Section Views.

Context {ext : externals}.

Implicit Types (self : API) (req : Request) (view handler : pyobj).

(** A handler whose two-argument call raises TypeError and whose
    zero-argument call returns a view: the hook step on that view
    follows at once. *)
Lemma dispatch_factory_view self req handler resp1 view :
  path req ≠ "" →
  dict.getitem (routes self) (path req) = Return handler →
  apply_req_resp handler req (Response_new req) = (Raise TypeError, resp1) →
  apply_noargs handler = Return view →
  _dispatch_request self req =
    (hooks view;; return_value None)
      {| w_req := req; w_resp := resp1;
         w_trace := [EvCall (oid handler); EvFactory (oid handler)] |}.
Proof.
  intros Hne Hget Happ Hno.
  rewrite (dispatch_registered _ _ _ Hne Hget), bind_run.
  rewrite (call_step_run handler (class_based handler) (init_world req)
             _ resp1 Happ).
  rewrite decide_True by done.
  rewrite (class_based_factory _ _ _ Hno). unfold with_event.
  cbn [w_req w_resp w_trace init_world app].
  rewrite !bind_run. by destruct (hooks view _) as [[[]|e] w2].
Qed.

(** X10.  When the zero-argument call of the handler returns a view,
    the schema and gateway attempts are skipped altogether: every
    further call is a hook of the view (its [execute], if it has one,
    is never called), and the request is not marked as dispatched. *)
Theorem factory_view_goes_straight_to_hooks self req handler resp1 view :
  path req ≠ "" →
  dict.getitem (routes self) (path req) = Return handler →
  apply_req_resp handler req (Response_new req) = (Raise TypeError, resp1) →
  apply_noargs handler = Return view →
  w_req (_dispatch_request self req).2 = req
  ∧ ∃ t, w_trace (_dispatch_request self req).2
         = [EvCall (oid handler); EvFactory (oid handler)] ++ t
         ∧ Forall (is_hook view) t.
Proof.
  intros Hne Hget Happ Hno.
  rewrite (dispatch_factory_view _ _ _ _ _ Hne Hget Happ Hno), bind_run.
  set (w1 := {| w_req := req; w_resp := resp1;
                w_trace := [EvCall (oid handler); EvFactory (oid handler)] |}).
  pose proof (hooks_req view w1) as Hreq.
  destruct (hooks_grows view w1) as (t & Ht & Hall).
  destruct (hooks view w1) as [[[]|e] w2]; unfold return_value; run;
    cbn in Hreq, Ht; (split; [done|]); by exists t.
Qed.

(** X11.  An error other than TypeError raised by the zero-argument
    call (the constructor of a view class) propagates out of dispatch;
    no schema, gateway or hook call is made. *)
Theorem factory_error_propagates self req handler resp1 e :
  path req ≠ "" →
  dict.getitem (routes self) (path req) = Return handler →
  apply_req_resp handler req (Response_new req) = (Raise TypeError, resp1) →
  apply_noargs handler = Raise e →
  e ≠ TypeError →
  _dispatch_request self req =
    (Raise e, {| w_req := req; w_resp := resp1;
                 w_trace := [EvCall (oid handler); EvFactory (oid handler)] |}).
Proof.
  intros Hne Hget Happ Hno He.
  rewrite (dispatch_registered _ _ _ Hne Hget), bind_run.
  rewrite (call_step_run handler (class_based handler) (init_world req)
             _ resp1 Happ).
  rewrite decide_True by done.
  unfold class_based, view_step. run. rewrite Hno.
  by rewrite decide_False.
Qed.

(** X12.  A view reached through the factory that exposes neither
    [on_request] nor the hook of the request's method is a silent
    no-op: no hook is called, no error is raised, and the response is
    returned as the rejected two-argument call left it. *)
Theorem view_without_matching_hook_is_silent self req handler resp1 view :
  path req ≠ "" →
  dict.getitem (routes self) (path req) = Return handler →
  apply_req_resp handler req (Response_new req) = (Raise TypeError, resp1) →
  apply_noargs handler = Return view →
  attrs view !! "on_request" = None →
  attrs view !! ("on_" +:+ lower (method req)) = None →
  _dispatch_request self req =
    (Return (RetResp resp1),
     {| w_req := req; w_resp := resp1;
        w_trace := [EvCall (oid handler); EvFactory (oid handler)] |}).
Proof.
  intros Hne Hget Happ Hno Hreq Hmeth.
  rewrite (dispatch_factory_view _ _ _ _ _ Hne Hget Happ Hno).
  unfold hooks. rewrite !bind_run, (hook_missing _ _ _ Hreq), bind_run.
  cbn [get_req w_req]. by rewrite (hook_missing _ _ _ Hmeth).
Qed.

(** The schema attempt when the query cannot be resolved. *)
Lemma schema_step_resolution_error view w execute e :
  attrs view !! "execute" = Some execute →
  _resolve_graphql_query (w_req w) = Raise e →
  e ≠ AssertionError →
  schema_step view w = (Raise e, w).
Proof.
  intros Hex Hq He. unfold schema_step, hasattr, graphql_response.
  rewrite Hex, bool_decide_eq_true_2 by by eexists.
  run. rewrite Hq. rewrite decide_False by done. by destruct w.
Qed.

(** The schema attempt when [execute] raises AssertionError. *)
Lemma schema_step_assertion view w execute query :
  attrs view !! "execute" = Some execute →
  _resolve_graphql_query (w_req w) = Return query →
  apply_query execute query = Raise AssertionError →
  schema_step view w
  = wsgi_step view (with_event w (EvExecute (oid view) query)).
Proof.
  intros Hex Hq Hrun. unfold schema_step, hasattr, graphql_response.
  rewrite Hex, bool_decide_eq_true_2 by by eexists.
  run. rewrite Hex, Hq, Hrun. by rewrite decide_True.
Qed.

(** X13.  When the query of a request routed to a schema cannot be
    resolved (any error but AssertionError, for instance the KeyError
    of a JSON body without a [query] field), the error propagates out
    of dispatch: the schema is not executed, the request is not marked
    and the response keeps its media. *)
Theorem query_resolution_error_propagates self req view resp1 execute e :
  path req ≠ "" →
  dict.getitem (routes self) (path req) = Return view →
  apply_req_resp view req (Response_new req) = (Raise TypeError, resp1) →
  apply_noargs view = Raise TypeError →
  attrs view !! "execute" = Some execute →
  _resolve_graphql_query req = Raise e →
  e ≠ AssertionError →
  _dispatch_request self req =
    (Raise e, {| w_req := req; w_resp := resp1;
                 w_trace := [EvCall (oid view); EvFactory (oid view)] |}).
Proof.
  intros Hne Hget Happ Hno Hex Hq He.
  rewrite (dispatch_raw_view _ _ _ _ Hne Hget Happ Hno), bind_run.
  by rewrite (schema_step_resolution_error view
                {| w_req := req; w_resp := resp1;
                   w_trace := [EvCall (oid view); EvFactory (oid view)] |}
                execute e Hex Hq He).
Qed.

(** X14.  An AssertionError raised by the schema's [execute] is taken
    for the absence of [execute]: the dispatcher marks the request and
    calls the schema object as a raw gateway application, and goes on
    from the outcome of that call. *)
Theorem assertion_in_execute_falls_to_gateway
    self req view resp1 execute query :
  path req ≠ "" →
  dict.getitem (routes self) (path req) = Return view →
  apply_req_resp view req (Response_new req) = (Raise TypeError, resp1) →
  apply_noargs view = Raise TypeError →
  attrs view !! "execute" = Some execute →
  _resolve_graphql_query req = Return query →
  apply_query execute query = Raise AssertionError →
  let w3 := {| w_req := set_dispatched true req; w_resp := resp1;
               w_trace := [EvCall (oid view); EvFactory (oid view);
                           EvExecute (oid view) query;
                           EvWsgi (oid view)] |} in
  _dispatch_request self req =
    match apply_wsgi view (_environ req) (_start_response req) with
    | Return v => (Return (RetWsgi v), w3)
    | Raise e => if decide (e = TypeError)
                 then (hooks view;; return_value None) w3
                 else (Raise e, w3)
    end.
Proof.
  intros Hne Hget Happ Hno Hex Hq Hrun w3.
  rewrite (dispatch_raw_view _ _ _ _ Hne Hget Happ Hno), bind_run.
  rewrite (schema_step_assertion view
             {| w_req := req; w_resp := resp1;
                w_trace := [EvCall (oid view); EvFactory (oid view)] |}
             execute query Hex Hq Hrun).
  rewrite wsgi_step_run. unfold with_event.
  cbn [w_req w_resp w_trace app]. fold w3.
  destruct (apply_wsgi view _ _) as [v|e]; [done|].
  by destruct (decide (e = TypeError)).
Qed.

End Views.

Lemma factory_view_goes_straight_to_hooks_witness :
  attrs samples.schema !! "execute" = Some (samples.execute_ 21)
  ∧ w_req (_dispatch_request (ext := samples.lib)
             (samples.api1 "/graphql" cases.SchemaClass)
             (samples.query_request "/graphql")).2
    = samples.query_request "/graphql"
  ∧ ∃ t, w_trace (_dispatch_request (ext := samples.lib)
                    (samples.api1 "/graphql" cases.SchemaClass)
                    (samples.query_request "/graphql")).2
         = [EvCall 40; EvFactory 40] ++ t
         ∧ Forall (is_hook samples.schema) t.
Proof.
  split; [reflexivity|].
  apply (factory_view_goes_straight_to_hooks (ext := samples.lib)
           (samples.api1 "/graphql" cases.SchemaClass)
           (samples.query_request "/graphql") cases.SchemaClass
           {| status_code := PInt 200; text_ := PNone; media := PNone |}
           samples.schema); solve [done | reflexivity].
Defined.

Lemma factory_error_propagates_witness :
  _dispatch_request (ext := samples.lib)
    (samples.api1 "/f" cases.FailingClass) (samples.request "GET" "/f")
  = (Raise ValueError,
     {| w_req := samples.request "GET" "/f";
        w_resp := {| status_code := PInt 200; text_ := PNone;
                     media := PNone |};
        w_trace := [EvCall 41; EvFactory 41] |}).
Proof.
  apply (factory_error_propagates (ext := samples.lib)
           (samples.api1 "/f" cases.FailingClass)
           (samples.request "GET" "/f") cases.FailingClass);
    solve [done | reflexivity].
Defined.

Lemma view_without_matching_hook_is_silent_witness :
  _dispatch_request (ext := samples.lib)
    (samples.api1 "/p" cases.PostOnly) (samples.request "GET" "/p")
  = (Return (RetResp {| status_code := PInt 200; text_ := PNone;
                        media := PNone |}),
     {| w_req := samples.request "GET" "/p";
        w_resp := {| status_code := PInt 200; text_ := PNone;
                     media := PNone |};
        w_trace := [EvCall 44; EvFactory 44] |}).
Proof.
  apply (view_without_matching_hook_is_silent (ext := samples.lib)
           (samples.api1 "/p" cases.PostOnly)
           (samples.request "GET" "/p") cases.PostOnly _ cases.post_only);
    solve [done | reflexivity].
Defined.

Lemma query_resolution_error_propagates_witness :
  _dispatch_request (ext := samples.lib)
    (samples.api1 "/graphql" samples.schema) samples.json_request_no_query
  = (Raise KeyError,
     {| w_req := samples.json_request_no_query;
        w_resp := {| status_code := PInt 200; text_ := PNone;
                     media := PNone |};
        w_trace := [EvCall 20; EvFactory 20] |}).
Proof.
  apply (query_resolution_error_propagates (ext := samples.lib)
           (samples.api1 "/graphql" samples.schema)
           samples.json_request_no_query samples.schema _
           (samples.execute_ 21));
    solve [done | reflexivity].
Defined.

Lemma assertion_in_execute_falls_to_gateway_witness :
  _dispatch_request (ext := samples.lib)
    (samples.api1 "/graphql" cases.asserting_schema)
    (samples.query_request "/graphql")
  = (Return (RetResp {| status_code := PInt 200; text_ := PNone;
                        media := PNone |}),
     {| w_req := set_dispatched true (samples.query_request "/graphql");
        w_resp := {| status_code := PInt 200; text_ := PNone;
                     media := PNone |};
        w_trace := [EvCall 46; EvFactory 46; EvExecute 46 (PStr "{ping}");
                    EvWsgi 46] |}).
Proof.
  rewrite (assertion_in_execute_falls_to_gateway (ext := samples.lib)
             (samples.api1 "/graphql" cases.asserting_schema)
             (samples.query_request "/graphql") cases.asserting_schema
             {| status_code := PInt 200; text_ := PNone; media := PNone |}
             cases.asserting_execute (PStr "{ping}"));
    solve [done | reflexivity].
Defined.

(** ** Errors raised by hooks *)

Section HookErrors.

Implicit Types (view : pyobj) (w : world).

Lemma hook_raises view name w h e resp' :
  attrs view !! name = Some h →
  apply_req_resp h (w_req w) (w_resp w) = (Raise e, resp') →
  hook view name w =
    (if decide (e = AttributeError) then Return () else Raise e,
     {| w_req := w_req w; w_resp := resp';
        w_trace := w_trace w ++ [EvHook (oid view) name] |}).
Proof.
  intros Hattr Happ. unfold hook, invoke_req_resp. run.
  rewrite Hattr. cbn. rewrite Happ.
  by destruct (decide (e = AttributeError)).
Qed.

(** X15.  Errors of the [on_request] hook.  An AttributeError raised
    by the hook is swallowed like a missing hook, and the hook of the
    method still runs, on the response as [on_request] left it.  Any
    other error (the TypeError of a hook that does not accept the two
    arguments included) propagates, and the hook of the method is not
    called. *)
Theorem on_request_errors view w on_request e resp1 :
  attrs view !! "on_request" = Some on_request →
  apply_req_resp on_request (w_req w) (w_resp w) = (Raise e, resp1) →
  let w1 := {| w_req := w_req w; w_resp := resp1;
               w_trace := w_trace w ++ [EvHook (oid view) "on_request"] |} in
  (e = AttributeError →
   hooks view w = hook view ("on_" +:+ lower (method (w_req w))) w1)
  ∧ (e ≠ AttributeError → hooks view w = (Raise e, w1)).
Proof.
  intros Hattr Happ w1. unfold hooks.
  rewrite bind_run, (hook_raises _ _ _ _ _ _ Hattr Happ). fold w1.
  split.
  - intros ->. by rewrite decide_True, bind_run.
  - intros He. by rewrite decide_False.
Qed.

End HookErrors.

Lemma on_request_errors_witness :
  hooks (cases.moody AttributeError) cases.at_hooks
  = (Return (),
     {| w_req := samples.request "GET" "/r";
        w_resp := {| status_code := PInt 200; text_ := PStr "[get]";
                     media := PNone |};
        w_trace := [EvHook 50 "on_request"; EvHook 50 "on_get"] |})
  ∧ hooks (cases.moody ValueError) cases.at_hooks
    = (Raise ValueError,
       {| w_req := samples.request "GET" "/r";
          w_resp := {| status_code := PInt 200; text_ := PNone;
                       media := PNone |};
          w_trace := [EvHook 50 "on_request"] |}).
Proof.
  split.
  - rewrite (proj1 (on_request_errors (cases.moody AttributeError)
                      cases.at_hooks (cases.raising_method 51 AttributeError)
                      AttributeError
                      {| status_code := PInt 200; text_ := PNone;
                         media := PNone |} eq_refl eq_refl) eq_refl).
    reflexivity.
  - apply (proj2 (on_request_errors (cases.moody ValueError)
                    cases.at_hooks (cases.raising_method 51 ValueError)
                    ValueError
                    {| status_code := PInt 200; text_ := PNone;
                       media := PNone |} eq_refl eq_refl)).
    done.
Defined.

(** ** The raw gateway attempt and the request flag *)

Section Gateway.

Context {ext : externals}.

Implicit Types (self : API) (req : Request) (view : pyobj).

(** X16.  A view without [execute] that answers the gateway call: the
    value it returns is the result of the dispatch, unchanged, the
    request is marked as dispatched, and no hook is called.  An error
    other than TypeError raised by the gateway call propagates, with
    the request marked. *)
Theorem gateway_call_outcomes self req view resp1 :
  path req ≠ "" →
  dict.getitem (routes self) (path req) = Return view →
  apply_req_resp view req (Response_new req) = (Raise TypeError, resp1) →
  apply_noargs view = Raise TypeError →
  attrs view !! "execute" = None →
  let w2 := {| w_req := set_dispatched true req; w_resp := resp1;
               w_trace := [EvCall (oid view); EvFactory (oid view);
                           EvWsgi (oid view)] |} in
  (∀ v, apply_wsgi view (_environ req) (_start_response req) = Return v →
        _dispatch_request self req = (Return (RetWsgi v), w2))
  ∧ (∀ e, apply_wsgi view (_environ req) (_start_response req) = Raise e →
          e ≠ TypeError →
          _dispatch_request self req = (Raise e, w2)).
Proof.
  intros Hne Hget Happ Hno Hex w2.
  rewrite (dispatch_raw_view _ _ _ _ Hne Hget Happ Hno), bind_run.
  rewrite (schema_step_no_execute _ _ Hex), wsgi_step_run.
  cbn [w_req w_resp w_trace app]. fold w2.
  split.
  - by intros v ->.
  - intros e -> He. by rewrite decide_False.
Qed.

Lemma set_dispatched_twice req :
  set_dispatched true (set_dispatched true req) = set_dispatched true req.
Proof. done. Qed.

Lemma marks_only_same {A} (m : M A) :
  (∀ w, w_req (m w).2 = w_req w) → marks_only m.
Proof. intros H w. left. apply H. Qed.

Lemma marks_only_bind {A B} (m : M A) (f : A → M B) :
  marks_only m → (∀ a, marks_only (f a)) → marks_only (m ≫= f).
Proof.
  intros Hm Hf w. rewrite bind_run.
  destruct (Hm w) as [H1|H1]; destruct (m w) as [[a|e] w1]; simpl in *;
    try (by auto);
    destruct (Hf a w1) as [H2|H2]; rewrite H2, H1; auto.
Qed.

Lemma marks_only_try_except {A} (m h : M A) cls :
  marks_only m → marks_only h → marks_only (try_except m cls h).
Proof.
  intros Hm Hh w. unfold try_except.
  destruct (Hm w) as [H1|H1]; destruct (m w) as [[a|e] w1]; simpl in *;
    try (by auto);
    (destruct (decide (e = cls)); [|by auto]);
    destruct (Hh w1) as [H2|H2]; rewrite H2, H1; auto.
Qed.

Lemma marks_only_hooks view : marks_only (hooks view).
Proof. apply marks_only_same, hooks_req. Qed.

Lemma marks_only_wsgi_step view : marks_only (wsgi_step view).
Proof.
  intros w. rewrite wsgi_step_run. right.
  destruct (apply_wsgi view _ _) as [v|e]; [done|].
  by destruct (decide (e = TypeError)).
Qed.

Lemma marks_only_graphql_response schema :
  marks_only (graphql_response schema).
Proof.
  apply marks_only_same. intros w. unfold graphql_response. run.
  destruct (_resolve_graphql_query (w_req w)) as [q|]; [|done].
  destruct (attrs schema !! "execute") as [x|]; [|done].
  destruct (apply_query x q) as [r|]; [|done].
  destruct (encode_execution_results r) as [[doc st]|]; [|done].
  by destruct (json_loads doc).
Qed.

Lemma marks_only_class_based handler : marks_only (class_based handler).
Proof.
  unfold class_based. apply marks_only_bind.
  - unfold view_step. apply marks_only_try_except.
    + apply marks_only_same. intros w. run.
      by destruct (apply_noargs handler).
    + apply marks_only_bind; [|intros early; by apply marks_only_same].
      unfold schema_step. apply marks_only_try_except;
        [|apply marks_only_wsgi_step].
      apply marks_only_bind.
      * apply marks_only_same. intros w. by destruct (hasattr handler _).
      * intros _. apply marks_only_bind;
          [apply marks_only_graphql_response|].
        intros ?. by apply marks_only_same.
  - intros [view [v|]]; [by apply marks_only_same|].
    apply marks_only_bind; [apply marks_only_hooks|].
    intros _. by apply marks_only_same.
Qed.

(** X17.  Whatever the route table and the handlers, a dispatch
    changes nothing in the request except, at most, setting its
    dispatched flag: the flag is never cleared, and path, method,
    parameters and body stay as received. *)
Theorem dispatch_only_marks_request self req :
  w_req (_dispatch_request self req).2 = req
  ∨ w_req (_dispatch_request self req).2 = set_dispatched true req.
Proof.
  assert (marks_only (dispatch_body self)) as Hm.
  { unfold dispatch_body. apply marks_only_bind; [by apply marks_only_same|].
    intros r. apply marks_only_bind.
    - destruct (truthy _).
      + unfold dispatch_route. apply marks_only_bind;
          [by apply marks_only_same|].
        intros handler. apply marks_only_try_except;
          [|apply marks_only_class_based].
        apply marks_only_same. intros w. unfold invoke_req_resp. run.
        by destruct (apply_req_resp handler (w_req w) (w_resp w)) as [[[]|] ?].
      + by apply marks_only_same.
    - intros [v|]; by apply marks_only_same. }
  apply (Hm (init_world req)).
Qed.

End Gateway.

Lemma gateway_call_outcomes_witness :
  _dispatch_request (ext := samples.lib)
    (samples.api1 "/w" samples.wsgi) (samples.request "GET" "/w")
  = (Return (RetWsgi (PList [PStr "body"])),
     {| w_req := set_dispatched true (samples.request "GET" "/w");
        w_resp := {| status_code := PInt 200; text_ := PNone;
                     media := PNone |};
        w_trace := [EvCall 30; EvFactory 30; EvWsgi 30] |}).
Proof.
  apply (proj1 (gateway_call_outcomes (ext := samples.lib)
                  (samples.api1 "/w" samples.wsgi)
                  (samples.request "GET" "/w") samples.wsgi
                  {| status_code := PInt 200; text_ := PNone; media := PNone |}
                  ltac:(done) eq_refl eq_refl eq_refl eq_refl));
    reflexivity.
Defined.

(** ** More on GraphQL requests *)

Section Query.

Context {ext : externals}.

Implicit Types (req : Request).

Lemma append_cons x (a c : string) : String x a +:+ c = String x (a +:+ c).
Proof. reflexivity. Qed.

Lemma prefix_occurs (a b : string) :
  String.prefix a b = true ↔ ∃ c, b = a +:+ c.
Proof.
  revert b. induction a as [|x a IH]; intros b.
  - split; [intros _; by exists b|]. intros _. by destruct b.
  - destruct b as [|y b].
    + change (String.prefix (String x a) "") with false.
      split; [done|]. intros [c Hc]. by rewrite append_cons in Hc.
    + change (String.prefix (String x a) (String y b))
        with (if Ascii.ascii_dec x y then String.prefix a b else false).
      destruct (Ascii.ascii_dec x y) as [->|Hne].
      * rewrite IH. split; intros [c Hc]; exists c.
        -- by rewrite append_cons, Hc.
        -- rewrite append_cons in Hc. by injection Hc.
      * split; [done|]. intros [c Hc]. rewrite append_cons in Hc.
        by injection Hc.
Qed.

(** X18.  The JSON test on the content type is a substring test: it
    holds exactly when [json] occurs somewhere in the content type
    (so for [application/json] as for [application/vnd.api+json]). *)
Theorem str_contains_occurs needle hay :
  str_contains needle hay = true ↔ occurs_in needle hay.
Proof.
  unfold occurs_in. induction hay as [|c hay IH].
  - change (str_contains needle "") with (String.prefix needle "" || false).
    rewrite orb_false_r, prefix_occurs. split.
    + intros [after Ha]. by exists "", after.
    + intros ([|b before] & after & Ha); [by exists after|].
      by rewrite append_cons in Ha.
  - change (str_contains needle (String c hay))
      with (String.prefix needle (String c hay) || str_contains needle hay).
    rewrite orb_true_iff, prefix_occurs, IH. split.
    + intros [[after Ha]|(before & after & Ha)].
      * by exists "", after.
      * exists (String c before), after. by rewrite append_cons, Ha.
    + intros ([|b before] & after & Ha).
      * left. by exists after.
      * right. exists before, after. rewrite append_cons in Ha.
        by injection Ha.
Qed.

(** X19.  Error behaviour of query resolution.  With a JSON content
    type an error of [req.json()] propagates, and a parsed body that is
    not an object makes the subscript raise TypeError; in neither case
    are the body fields, the URL parameters or the raw text consulted.
    Without a JSON content type and without a query in the body, a
    [query] parameter holding no value raises IndexError: the [q]
    parameter and the raw text are not tried. *)
Theorem query_resolution_errors req :
  (str_contains "json" (mimetype req) = true →
   (∀ e, json req = Raise e → _resolve_graphql_query req = Raise e)
   ∧ (∀ j, json req = Return j → (∀ d, j ≠ PDict d) →
           _resolve_graphql_query req = Raise TypeError))
  ∧ (str_contains "json" (mimetype req) = false →
     no_query_in_data req →
     params req !! "query" = Some [] →
     _resolve_graphql_query req = Raise IndexError).
Proof.
  split.
  - intros Hjson. rewrite (resolve_json _ Hjson). split.
    + by intros e ->.
    + intros j -> Hj. destruct j; try done. by destruct (Hj d).
  - intros Hjson Hdata Hq. by rewrite (resolve_params _ Hjson Hdata), Hq.
Qed.

(** X20.  [graphql_response] writes the response's media and nothing
    else.  When it returns, the media is the parsed document, the
    status code the encoder computed is only part of the returned
    triple (the response keeps its status code and text), and exactly
    one [execute] call has been issued, with the resolved query.  When
    it raises, the response is left entirely as it was. *)
Theorem graphql_response_writes_media_only schema w :
  match graphql_response schema w with
  | (Return (query, doc, status), w') =>
      _resolve_graphql_query (w_req w) = Return query
      ∧ json_loads doc = Return (media (w_resp w'))
      ∧ status_code (w_resp w') = status_code (w_resp w)
      ∧ text_ (w_resp w') = text_ (w_resp w)
      ∧ w_req w' = w_req w
      ∧ w_trace w' = w_trace w ++ [EvExecute (oid schema) query]
  | (Raise e, w') => w_resp w' = w_resp w ∧ w_req w' = w_req w
  end.
Proof.
  unfold graphql_response. run.
  destruct (_resolve_graphql_query (w_req w)) as [q|]; [|done].
  destruct (attrs schema !! "execute") as [x|]; [|done].
  destruct (apply_query x q) as [r|]; [|done].
  destruct (encode_execution_results r) as [[doc st]|]; [|done].
  destruct (json_loads doc) as [m|] eqn:Hm; cbn; [|done].
  by rewrite Hm.
Qed.

End Query.

Lemma query_resolution_errors_witness :
  _resolve_graphql_query
    {| models.path := "/graphql"; models.method := "GET";
       mimetype := "text/plain"; json := Raise ValueError;
       data := Text ""; params := {[ "query" := []; "q" := ["{ping}"] ]};
       text := "{ping}"; dispatched := false;
       _environ := PNone; _start_response := PNone |}
  = Raise IndexError.
Proof.
  apply (proj2 (query_resolution_errors
                  {| models.path := "/graphql"; models.method := "GET";
                     mimetype := "text/plain"; json := Raise ValueError;
                     data := Text "";
                     params := {[ "query" := []; "q" := ["{ping}"] ]};
                     text := "{ping}"; dispatched := false;
                     _environ := PNone; _start_response := PNone |}));
    [reflexivity | exact I | reflexivity].
Defined.

(** ** Mounts and the gateway entry points *)

Section Mounts.

Context {ext : externals}.

Implicit Types (self : API) (calls : list (string * wsgi_callable)).

(** X21.  The application mounted last at a prefix is the one the
    table holds for it, whatever was mounted there before and whatever
    is mounted elsewhere afterwards; a prefix no call names keeps its
    entry; and mounting never touches the routes or the cached
    session. *)
Theorem mount_last_wins self calls prefix :
  (∀ before app after,
      calls = before ++ (prefix, app) :: after →
      Forall (λ c, c.1 ≠ prefix) after →
      apps (mount_all self calls) !! prefix = Some app)
  ∧ (Forall (λ c, c.1 ≠ prefix) calls →
     apps (mount_all self calls) !! prefix = apps self !! prefix)
  ∧ routes (mount_all self calls) = routes self
  ∧ _session (mount_all self calls) = _session self.
Proof.
  assert (∀ self0 l, Forall (λ c, c.1 ≠ prefix) l →
            apps (mount_all self0 l) !! prefix = apps self0 !! prefix)
    as Hkeep.
  { intros self0 l. revert self0.
    induction l as [|[p a] l IH]; intros self0 Hl; [done|].
    apply Forall_cons in Hl as [Hp Hl]. simpl in Hp.
    change (mount_all self0 ((p, a) :: l))
      with (mount_all (mount self0 p a) l).
    rewrite (IH _ Hl). cbn [mount apps]. by apply lookup_insert_ne. }
  split; [|split; [by apply Hkeep|]].
  - intros before app after -> Hafter.
    unfold mount_all. rewrite foldl_app.
    change (foldl _ ?a ((prefix, app) :: after))
      with (mount_all (mount a prefix app) after).
    rewrite (Hkeep _ _ Hafter). cbn [mount apps]. apply lookup_insert_eq.
  - clear Hkeep. revert self.
    induction calls as [|[p a] calls IH]; intros self; [done|].
    change (mount_all self ((p, a) :: calls))
      with (mount_all (mount self p a) calls).
    by destruct (IH (mount self p a)) as [-> ->].
Qed.

(** X22.  After construction and any sequence of mounts, at any
    prefixes, the table has a root entry: [wsgi_app] always finds its
    main application (the [pop] never raises KeyError), the main
    application is the root entry, and the middleware receives every
    other mount and no root entry. *)
Theorem wsgi_app_always_finds_main calls :
  ∃ main rest,
    methods.wsgi_app_parts (mount_all API_init calls) = Return (main, rest)
    ∧ apps (mount_all API_init calls) !! "/" = Some main
    ∧ rest !! "/" = None
    ∧ ∀ prefix, prefix ≠ "/" →
        rest !! prefix = apps (mount_all API_init calls) !! prefix.
Proof.
  assert (is_Some (apps (mount_all API_init calls) !! "/")) as [main Hmain].
  { induction calls as [|[p a] calls IH] using rev_ind; [by eexists|].
    rewrite mount_all_snoc. cbn [mount apps].
    destruct (decide (p = "/")) as [->|Hne].
    - rewrite lookup_insert_eq. by eexists.
    - by rewrite lookup_insert_ne. }
  exists main, (delete "/" (apps (mount_all API_init calls))).
  unfold methods.wsgi_app_parts. rewrite Hmain.
  split; [done|]. split; [done|]. split; [apply lookup_delete_eq|].
  intros prefix Hne. by apply lookup_delete_ne.
Qed.

Lemma dispatch_depends_on_routes self1 self2 req :
  routes self1 = routes self2 →
  _dispatch_request self1 req = _dispatch_request self2 req.
Proof.
  intros Hr. unfold _dispatch_request, dispatch_body, path_matches_route,
    dispatch_route. by rewrite Hr.
Qed.

(** X23.  Mounting an application and creating the client session
    never change how a request is dispatched; and neither a
    registration nor a mount drops a cached session: the next
    [session] call still returns it. *)
Theorem mounts_and_session_leave_dispatch self :
  (∀ prefix app req,
      _dispatch_request (mount self prefix app) req
      = _dispatch_request self req)
  ∧ (∀ base_url req,
       _dispatch_request (session self base_url).2 req
       = _dispatch_request self req)
  ∧ (∀ s, _session self = Some s →
       (∀ prefix app base_url,
           (session (mount self prefix app) base_url).1 = s)
       ∧ (∀ path view check_existing self' base_url,
            add_route self path view check_existing = Return self' →
            (session self' base_url).1 = s)).
Proof.
  split; [|split].
  - intros prefix app req. by apply dispatch_depends_on_routes.
  - intros base_url req. apply dispatch_depends_on_routes.
    unfold session. by destruct (_session self).
  - intros s Hs. split.
    + intros prefix app base_url. unfold session. cbn [mount _session].
      by rewrite Hs.
    + intros path view c self' base_url. unfold add_route.
      destruct (c && dict.contains (routes self) path); [done|].
      intros [= <-]. unfold session. cbn [_session]. by rewrite Hs.
Qed.

End Mounts.

Lemma mount_last_wins_witness :
  apps (mount_all API_init [("/admin", App samples.hello);
                            ("/admin", App samples.wsgi);
                            ("/docs", App samples.other)]) !! "/admin"
  = Some (App samples.wsgi).
Proof.
  apply (proj1 (mount_last_wins API_init
                  [("/admin", App samples.hello);
                   ("/admin", App samples.wsgi);
                   ("/docs", App samples.other)] "/admin")
           [("/admin", App samples.hello)] (App samples.wsgi)
           [("/docs", App samples.other)] eq_refl).
  repeat constructor; done.
Defined.

(** ** The listen address *)

Section Run.

(** X24.  The address the server listens on.  When [PORT] is in the
    environment its value is the port, whatever port was passed, and
    the address defaults to [0.0.0.0]; otherwise the port passed is
    used, [0] by default, and the address defaults to [127.0.0.1].  An
    address passed explicitly is always used. *)
Theorem run_listen_address environ address port :
  (∀ p, environ !! "PORT" = Some p →
        methods.run environ address port
        = default "0.0.0.0" address +:+ ":" +:+ p
        ∧ ∀ port', methods.run environ address port'
                   = methods.run environ address port)
  ∧ (environ !! "PORT" = None →
     methods.run environ address port
     = default "127.0.0.1" address +:+ ":"
       +:+ format_port (default (PortInt 0) port))
  ∧ (∀ a, address = Some a →
          ∃ p, methods.run environ address port = a +:+ ":" +:+ p).
Proof.
  unfold methods.run. split; [|split].
  - intros p ->. split; [by destruct address|]. by intros port'.
  - intros ->. by destruct address, port.
  - intros a ->. destruct (environ !! "PORT") as [p|]; by eexists.
Qed.

End Run.

Lemma run_listen_address_witness :
  methods.run {[ "PORT" := "8080" ]} None (Some (PortInt 5000))
  = "0.0.0.0:8080"
  ∧ methods.run ∅ None None = "127.0.0.1:0"
  ∧ methods.run ∅ (Some "localhost") (Some (PortInt 5000))
    = "localhost:5000".
Proof.
  split; [|split].
  - refine (proj1 (proj1 (run_listen_address {[ "PORT" := "8080" ]} None
                            (Some (PortInt 5000))) "8080" _)).
    reflexivity.
  - refine (proj1 (proj2 (run_listen_address ∅ None None)) _).
    reflexivity.
  - refine (proj1 (proj2 (run_listen_address ∅ (Some "localhost")
                            (Some (PortInt 5000)))) _).
    reflexivity.
Defined.

(** ** The gateway entry point *)

Section Entry.

Context {ext : externals} {tr : transport}.

(** X25.  A request for a path that is not registered is answered,
    at the gateway entry point, by the response object carrying status
    404 and the text [Not found.]. *)
Theorem entry_answers_not_found self environ start_response :
  dict.contains (routes self)
    (path (Request_from_environ environ start_response)) = false →
  methods.__wsgi_app self environ start_response
  = Response_call
      {| status_code := PInt HTTP_404; text_ := PStr "Not found.";
         media := media (Response_new
                           (Request_from_environ environ start_response)) |}
      environ start_response.
Proof.
  intros Hno. unfold methods.__wsgi_app.
  by rewrite (dispatch_unregistered _ _ Hno).
Qed.

(** X26.  When a route's handler answers as a raw gateway application,
    the entry point does not hand its result to the server: it calls
    that result with [(environ, start_response)] as if it were a
    response object, and the result, being plain data, is not callable:
    the request ends in a TypeError. *)
Theorem entry_calls_gateway_result self environ start_response view resp1 v :
  path (Request_from_environ environ start_response) ≠ "" →
  dict.getitem (routes self)
    (path (Request_from_environ environ start_response)) = Return view →
  apply_req_resp view (Request_from_environ environ start_response)
    (Response_new (Request_from_environ environ start_response))
  = (Raise TypeError, resp1) →
  apply_noargs view = Raise TypeError →
  attrs view !! "execute" = None →
  apply_wsgi view
    (_environ (Request_from_environ environ start_response))
    (_start_response (Request_from_environ environ start_response))
  = Return v →
  (_dispatch_request self
     (Request_from_environ environ start_response)).1 = Return (RetWsgi v)
  ∧ methods.__wsgi_app self environ start_response = Raise TypeError.
Proof.
  intros Hne Hget Happ Hno Hex Hwsgi. unfold methods.__wsgi_app.
  by rewrite (accepted_gateway_call_returns_value _ _ _ _ _
                Hne Hget Happ Hno Hex Hwsgi).
Qed.

End Entry.

Lemma entry_answers_not_found_witness :
  methods.__wsgi_app (ext := samples.lib) (tr := cases.wire)
    (samples.api1 "/a" samples.hello) (PStr "/missing") PNone
  = Return (PList [PStr "Not found."]).
Proof.
  apply (entry_answers_not_found (ext := samples.lib) (tr := cases.wire)
           (samples.api1 "/a" samples.hello) (PStr "/missing") PNone).
  reflexivity.
Defined.

Lemma entry_calls_gateway_result_witness :
  (_dispatch_request (ext := samples.lib) (samples.api1 "/w" samples.wsgi)
     (samples.request "GET" "/w")).1
  = Return (RetWsgi (PList [PStr "body"]))
  ∧ methods.__wsgi_app (ext := samples.lib) (tr := cases.wire)
      (samples.api1 "/w" samples.wsgi) (PStr "/w") PNone
    = Raise TypeError.
Proof.
  apply (entry_calls_gateway_result (ext := samples.lib) (tr := cases.wire)
           (samples.api1 "/w" samples.wsgi) (PStr "/w") PNone samples.wsgi
           {| status_code := PInt 200; text_ := PNone; media := PNone |}
           (PList [PStr "body"]));
    solve [done | reflexivity].
Defined.

Lemma url_for_fails_iff_unregistered_witness :
  url_for (samples.api1 "/a" samples.hello) samples.other = Raise ValueError.
Proof.
  apply (proj2 (url_for_fails_iff_unregistered
                  (samples.api1 "/a" samples.hello) samples.other)).
  repeat constructor.
Defined.

Lemma str_contains_occurs_witness :
  str_contains "json" "application/vnd.api+json" = true.
Proof.
  apply (proj2 (str_contains_occurs "json" "application/vnd.api+json")).
  by exists "application/vnd.api+", "".
Defined.

Lemma mounts_and_session_leave_dispatch_witness :
  (session (ext := samples.lib)
     (mount (session (ext := samples.lib) API_init "http://app").2
        "/admin" (App samples.wsgi))
     "http://other").1
  = (session (ext := samples.lib) API_init "http://app").1.
Proof.
  apply (proj1 (proj2 (proj2 (mounts_and_session_leave_dispatch
                                (ext := samples.lib)
                                (session (ext := samples.lib) API_init
                                   "http://app").2))
                  (session (ext := samples.lib) API_init "http://app").1
                  eq_refl)).
Defined.

(** * The hook step on a whole dispatch *)

Section HookStepOfDispatch.

Context {ext : externals}.

Implicit Types (self : API) (req : Request) (view handler : pyobj)
  (w : world).




End HookStepOfDispatch.


(** * Query resolution for every JSON body *)

Section QueryResolutionTotal.

Implicit Types (req : Request) (v : pyval).

(** C5 (as amended).  Query resolution, first match wins.
    (1) JSON content type: the result is [req.json()["query"]].  For a
        body that is an object it is the value of its [query] field,
        and KeyError when the object has no such field; for a body
        that is not an object (a list, a string, a number, null) the
        subscript raises TypeError; an error of [req.json()] itself
        propagates.  Nothing else is consulted.
    (2) Otherwise, a structured body: its [query] value, else its [q]
        value.
    (3) Otherwise, the URL parameters: the first value of [query], else
        the first value of [q].
    (4) Otherwise the raw request text. *)
Theorem graphql_query_resolution req :
  (str_contains "json" (mimetype req) = true →
   (∀ d v, json req = Return (PDict d) → d !! "query" = Some v →
           _resolve_graphql_query req = Return v)
   ∧ (∀ d, json req = Return (PDict d) → d !! "query" = None →
           _resolve_graphql_query req = Raise KeyError)
   ∧ (∀ j, json req = Return j → (∀ d, j ≠ PDict d) →
           _resolve_graphql_query req = Raise TypeError)
   ∧ (∀ e, json req = Raise e → _resolve_graphql_query req = Raise e))
  ∧ (str_contains "json" (mimetype req) = false →
     (∀ m, data req = Fields m →
        (∀ v, m !! "query" = Some v → _resolve_graphql_query req = Return v)
        ∧ (∀ v, m !! "query" = None → m !! "q" = Some v →
                _resolve_graphql_query req = Return v))
     ∧ (no_query_in_data req →
        (∀ x xs, params req !! "query" = Some (x :: xs) →
                 _resolve_graphql_query req = Return (PStr x))
        ∧ (∀ x xs, params req !! "query" = None →
                   params req !! "q" = Some (x :: xs) →
                   _resolve_graphql_query req = Return (PStr x))
        ∧ (params req !! "query" = None → params req !! "q" = None →
           _resolve_graphql_query req = Return (PStr (text req))))).
Proof.
  split.
  - intros Hjson. rewrite (resolve_json _ Hjson).
    split; [|split; [|split]].
    + intros d v -> Hq. simpl. by rewrite Hq.
    + intros d -> Hq. simpl. by rewrite Hq.
    + intros j -> Hj. destruct j; try done. by destruct (Hj d).
    + by intros e ->.
  - intros Hjson. split.
    + intros m Hm. unfold _resolve_graphql_query. rewrite Hjson, Hm.
      split; [by intros v ->|by intros v -> ->].
    + intros Hdata. rewrite (resolve_params _ Hjson Hdata).
      split; [|split].
      * by intros x xs ->.
      * by intros x xs -> ->.
      * by intros -> ->.
Qed.

End QueryResolutionTotal.

Lemma graphql_query_resolution_witness :
  _resolve_graphql_query samples.json_request = Return (PStr "{ping}")
  ∧ _resolve_graphql_query samples.json_request_no_query = Raise KeyError
  ∧ _resolve_graphql_query cases.json_list_request = Raise TypeError
  ∧ _resolve_graphql_query samples.form_request = Return (PStr "{ping}")
  ∧ _resolve_graphql_query samples.params_request = Return (PStr "{ping}")
  ∧ _resolve_graphql_query (samples.query_request "/graphql")
    = Return (PStr "{ping}").
Proof.
  split; [|split; [|split; [|split; [|split]]]].
  - apply (proj1 (proj1 (graphql_query_resolution samples.json_request)
                    eq_refl) {[ "query" := PStr "{ping}" ]} (PStr "{ping}"));
      reflexivity.
  - apply (proj1 (proj2 (proj1 (graphql_query_resolution
                                  samples.json_request_no_query) eq_refl))
             {[ "q" := PStr "{ping}" ]}); reflexivity.
  - apply (proj1 (proj2 (proj2 (proj1 (graphql_query_resolution
                                         cases.json_list_request) eq_refl)))
             (PList [PStr "{ping}"])); [reflexivity|done].
  - apply (proj2 (proj1 (proj2 (graphql_query_resolution samples.form_request)
                           eq_refl) {[ "q" := PStr "{ping}" ]} eq_refl));
      reflexivity.
  - apply (proj1 (proj2 (proj2 (graphql_query_resolution
                                  samples.params_request) eq_refl) I))
      with (xs := ["{second}"]); reflexivity.
  - apply (proj2 (proj2 (proj2 (proj2 (graphql_query_resolution
                                         (samples.query_request "/graphql"))
                                  eq_refl) I)));
      reflexivity.
Defined.

(** C5, counterexample.  The content type is JSON and the parsed body
    is the list [["{ping}"]]: the body has no [query] field, and the
    lookup fails with TypeError, which is not a KeyError. *)
Lemma json_list_body_raises_TypeError :
  str_contains "json" (mimetype cases.json_list_request) = true
  ∧ json cases.json_list_request = Return (PList [PStr "{ping}"])
  ∧ _resolve_graphql_query cases.json_list_request = Raise TypeError
  ∧ _resolve_graphql_query cases.json_list_request ≠ Raise KeyError.
Proof. split; [|split; [|split]]; [reflexivity..|discriminate]. Qed.

(** * Replacing the handler of the empty path *)

Section EmptyPathReplaced.

Context {ext : externals}.

Implicit Types (self : API) (req : Request).

(** A request for the empty path gets the default response whenever
    the empty path is registered. *)
Lemma dispatch_empty_path self req handler :
  dict.getitem (routes self) "" = Return handler →
  path req = "" →
  _dispatch_request self req
  = (Return (RetResp {| status_code := PInt HTTP_404;
                        text_ := PStr "Not found.";
                        media := media (Response_new req) |}),
     {| w_req := req;
        w_resp := {| status_code := PInt HTTP_404;
                     text_ := PStr "Not found.";
                     media := media (Response_new req) |};
        w_trace := [EvDefaultResponse] |}).
Proof.
  intros Hget Hpath.
  unfold _dispatch_request, dispatch_body, path_matches_route.
  rewrite bind_run. cbn [get_req init_world w_req]. rewrite Hpath.
  by rewrite (path_matches_route_items_getitem _ _ _ Hget).
Qed.

(** C7, at the input where the code departs from it.  [old] is
    registered at the empty path.  Registering [new] there with the
    check on fails with AssertionError, and with the check off [new]
    replaces [old] in the table, as for any path.  But a later
    dispatch of the empty path calls neither handler: the dispatcher
    takes the matched empty route for no match and produces the
    default response. *)
Theorem replaced_handler_at_empty_path_is_not_called self old new :
  dict.getitem (routes self) "" = Return old →
  add_route self "" new true = Raise AssertionError
  ∧ ∃ self',
      add_route self "" new false = Return self'
      ∧ dict.getitem (routes self') "" = Return new
      ∧ ∀ req, path req = "" →
          _dispatch_request self' req
          = (Return (RetResp {| status_code := PInt HTTP_404;
                                text_ := PStr "Not found.";
                                media := media (Response_new req) |}),
             {| w_req := req;
                w_resp := {| status_code := PInt HTTP_404;
                             text_ := PStr "Not found.";
                             media := media (Response_new req) |};
                w_trace := [EvDefaultResponse] |}).
Proof.
  intros Hold. pose proof (contains_getitem _ _ _ Hold) as Hin.
  split.
  - unfold add_route. by rewrite Hin.
  - eexists. split; [reflexivity|]. cbn [routes].
    split; [apply getitem_setitem|].
    intros req Hpath. apply (dispatch_empty_path _ _ new); [|done].
    apply getitem_setitem.
Qed.

End EmptyPathReplaced.

Lemma replaced_handler_at_empty_path_is_not_called_witness :
  add_route cases.api_empty_path "" samples.other true = Raise AssertionError
  ∧ ∃ self',
      add_route cases.api_empty_path "" samples.other false = Return self'
      ∧ routes self' = [("", samples.other)]
      ∧ _dispatch_request (ext := samples.lib) self' (samples.request "GET" "")
        = (Return (RetResp {| status_code := PInt 404;
                              text_ := PStr "Not found."; media := PNone |}),
           {| w_req := samples.request "GET" "";
              w_resp := {| status_code := PInt 404;
                           text_ := PStr "Not found."; media := PNone |};
              w_trace := [EvDefaultResponse] |}).
Proof.
  destruct (replaced_handler_at_empty_path_is_not_called (ext := samples.lib)
              cases.api_empty_path samples.hello samples.other eq_refl)
    as [Hdup (self' & Hadd & Hnew & Hdispatch)].
  split; [exact Hdup|].
  exists self'. split; [exact Hadd|].
  split; [by injection Hadd as <-|].
  apply (Hdispatch (samples.request "GET" "")). reflexivity.
Defined.
